(** * On-call schedule store: overlap prevention and point-in-time queries

    A shallow embedding of the schedule endpoints of [backend/main.py]
    ([create_oncall_schedule], [get_current_oncall], [get_today_oncall],
    [delete_oncall_schedule], [list_oncall_schedules]) together with the
    part of the SQLAlchemy session they use, of the user endpoints
    ([create_user], [list_users], [login], [startup]) and of the
    dependencies that guard them ([get_current_user],
    [get_current_admin_user]), with passlib and python-jose as
    interfaces; and the properties proved about them. *)

From Stdlib Require Import ZArith List String Bool Lia.
From Stdlib Require Import Ascii Sorting.Permutation Sorting.Sorted.
Import ListNotations.
Local Open Scope string_scope.
Local Open Scope list_scope.
Local Open Scope Z_scope.

(** ** Data model *)

(** A naive UTC [datetime], as the number of microseconds elapsed since
    [datetime.min] (0001-01-01T00:00:00).  Comparison of datetimes is
    comparison of these numbers. *)
Definition datetime := Z.

Definition MICROSECONDS_PER_DAY : Z := 86400000000.

(** [datetime.max] is 9999-12-31T23:59:59.999999, the last microsecond of
    day number 3652059. *)
Definition datetime_max : datetime := 3652059 * MICROSECONDS_PER_DAY - 1.

(** [timedelta(days=n)]. *)
Definition timedelta_days (n : Z) : Z := n * MICROSECONDS_PER_DAY.

(** [d.replace(hour=0, minute=0, second=0, microsecond=0)]. *)
Definition replace_midnight (d : datetime) : datetime :=
  d - d mod MICROSECONDS_PER_DAY.

(** Rows of the table [users]. *)
Module User.
Record t := {
  id : Z;
  email : string;
  username : string;
  hashed_password : string;
  full_name : option string;
  is_admin : bool;
  is_active : bool;
  created_at : datetime
}.
End User.

(** Rows of the table [oncall_schedules]. *)
Module OnCallSchedule.
Record t := {
  id : Z;
  user_id : Z;
  start_date : datetime;
  end_date : datetime;
  notes : option string;
  created_by : Z;
  created_at : datetime
}.
End OnCallSchedule.

(** The request body of [POST /oncall]. *)
Module OnCallScheduleCreate.
Record t := {
  user_id : Z;
  start_date : datetime;
  end_date : datetime;
  notes : option string
}.
End OnCallScheduleCreate.

(** The dictionary returned by [get_current_oncall]; [schedule.user] is the
    many-to-one relationship, [None] when no row of [users] has the key. *)
Module CurrentOnCall.
Record t := {
  user : option User.t;
  schedule : OnCallSchedule.t
}.
End CurrentOnCall.

(** The database: both tables in storage order, and the sequence that
    generates the primary key of [oncall_schedules]. *)
Record Db := {
  users : list User.t;
  oncall_schedules : list OnCallSchedule.t;
  oncall_schedules_id_seq : Z
}.

(** ** Exceptions and the session monad *)

Inductive exn :=
| HTTPException (status_code : Z) (detail : string)
| OverflowError.

Inductive outcome (A : Type) :=
| Return (a : A)
| Raise (e : exn).
Arguments Return {A} a.
Arguments Raise {A} e.

(** A handler run against the session [db]: it reads and writes the
    database and either returns or raises. *)
Definition Session (A : Type) : Type := Db -> outcome A * Db.

Definition ret {A} (a : A) : Session A := fun db => (Return a, db).

Definition raise {A} (e : exn) : Session A := fun db => (Raise e, db).

Definition bind {A B} (m : Session A) (k : A -> Session B) : Session B :=
  fun db =>
    match m db with
    | (Return a, db') => k a db'
    | (Raise e, db') => (Raise e, db')
    end.

Declare Scope session_scope.
Delimit Scope session_scope with session.
Notation "x <- m ;; k" := (bind m (fun x => k))
  (at level 61, m at next level, right associativity) : session_scope.
Local Open Scope session_scope.

(** [db.query(T).filter(p).first()]: the first row, in storage order, that
    satisfies the filter. *)
Definition query_first {A} (table : Db -> list A) (p : A -> bool)
  : Session (option A) :=
  fun db => (Return (find p (table db)), db).

(** [db.query(T).filter(p).all()]. *)
Definition query_all {A} (table : Db -> list A) (p : A -> bool)
  : Session (list A) :=
  fun db => (Return (filter p (table db)), db).

(** [db.add(row); db.commit(); db.refresh(row)] for a new schedule: the
    sequence gives the row its primary key, the row is appended to the
    table and read back. *)
Definition add_commit_refresh (new : Z -> OnCallSchedule.t)
  : Session OnCallSchedule.t :=
  fun db =>
    let row := new (oncall_schedules_id_seq db) in
    (Return row,
     {| users := users db;
        oncall_schedules := oncall_schedules db ++ [row];
        oncall_schedules_id_seq := oncall_schedules_id_seq db + 1 |}).

(** [db.delete(row); db.commit()]: [DELETE FROM oncall_schedules WHERE
    id = row.id]. *)
Definition delete_commit (row : OnCallSchedule.t) : Session unit :=
  fun db =>
    (Return tt,
     {| users := users db;
        oncall_schedules :=
          filter (fun s => negb (OnCallSchedule.id s =? OnCallSchedule.id row))
                 (oncall_schedules db);
        oncall_schedules_id_seq := oncall_schedules_id_seq db |}).

(** [d + delta] on datetimes raises [OverflowError] outside
    [datetime.min .. datetime.max]. *)
Definition datetime_add (d : datetime) (delta : Z) : Session datetime :=
  let r := d + delta in
  if (r <? 0) || (datetime_max <? r) then raise OverflowError else ret r.

(** ** The schedule endpoints *)

(** The filter of the overlap query of [create_oncall_schedule]. *)
Definition overlaps_request (schedule : OnCallScheduleCreate.t)
    (s : OnCallSchedule.t) : bool :=
  (OnCallSchedule.user_id s =? OnCallScheduleCreate.user_id schedule)
  && (OnCallSchedule.start_date s <? OnCallScheduleCreate.end_date schedule)
  && (OnCallSchedule.end_date s >? OnCallScheduleCreate.start_date schedule).

(** [create_oncall_schedule]; [current_user] is what the dependency
    [get_current_admin_user] resolved to, [now] is the value of
    [datetime.utcnow] taken as the column default of [created_at]. *)
Definition create_oncall_schedule (now : datetime)
    (schedule : OnCallScheduleCreate.t) (current_user : User.t)
  : Session OnCallSchedule.t :=
  user <- query_first users
            (fun u => User.id u =? OnCallScheduleCreate.user_id schedule) ;;
  match user with
  | None => raise (HTTPException 404 "User not found")
  | Some _ =>
      overlap <- query_first oncall_schedules (overlaps_request schedule) ;;
      match overlap with
      | Some _ =>
          raise (HTTPException 400 "Schedule overlaps with existing schedule")
      | None =>
          add_commit_refresh (fun new_id =>
            {| OnCallSchedule.id := new_id;
               OnCallSchedule.user_id := OnCallScheduleCreate.user_id schedule;
               OnCallSchedule.start_date :=
                 OnCallScheduleCreate.start_date schedule;
               OnCallSchedule.end_date := OnCallScheduleCreate.end_date schedule;
               OnCallSchedule.notes := OnCallScheduleCreate.notes schedule;
               OnCallSchedule.created_by := User.id current_user;
               OnCallSchedule.created_at := now |})
      end
  end.

(** [get_current_oncall], with [now] the value of [datetime.utcnow()]. *)
Definition get_current_oncall (now : datetime) (current_user : User.t)
  : Session CurrentOnCall.t :=
  schedule <- query_first oncall_schedules
                (fun s => (OnCallSchedule.start_date s <=? now)
                          && (OnCallSchedule.end_date s >=? now)) ;;
  match schedule with
  | None => raise (HTTPException 404 "No one is currently on-call")
  | Some schedule =>
      user <- query_first users
                (fun u => User.id u =? OnCallSchedule.user_id schedule) ;;
      ret {| CurrentOnCall.user := user; CurrentOnCall.schedule := schedule |}
  end.

(** [get_today_oncall], with [now] the value of [datetime.utcnow()]. *)
Definition get_today_oncall (now : datetime) (current_user : User.t)
  : Session (list OnCallSchedule.t) :=
  let today_start := replace_midnight now in
  today_end <- datetime_add today_start (timedelta_days 1) ;;
  query_all oncall_schedules
    (fun s => (OnCallSchedule.start_date s <? today_end)
              && (OnCallSchedule.end_date s >? today_start)).

(** [delete_oncall_schedule]; the returned string is the value of the
    key [message] of the response. *)
Definition delete_oncall_schedule (schedule_id : Z) (current_user : User.t)
  : Session string :=
  schedule <- query_first oncall_schedules
                (fun s => OnCallSchedule.id s =? schedule_id) ;;
  match schedule with
  | None => raise (HTTPException 404 "Schedule not found")
  | Some schedule =>
      _ <- delete_commit schedule ;;
      ret "Schedule deleted successfully"
  end.

(** ** The other endpoints *)

(** [ORDER BY start_date DESC]: a row goes behind the rows that start
    later.  Among rows with the same [start_date] the database promises
    no order; here they keep their storage order. *)
Fixpoint insert_start_date_desc (s : OnCallSchedule.t)
    (sorted : list OnCallSchedule.t) : list OnCallSchedule.t :=
  match sorted with
  | [] => [s]
  | x :: rest =>
      if OnCallSchedule.start_date s <? OnCallSchedule.start_date x
      then x :: insert_start_date_desc s rest
      else s :: x :: rest
  end.

Fixpoint order_by_start_date_desc (rows : list OnCallSchedule.t)
  : list OnCallSchedule.t :=
  match rows with
  | [] => []
  | s :: rest => insert_start_date_desc s (order_by_start_date_desc rest)
  end.

(** [list_oncall_schedules]. *)
Definition list_oncall_schedules (current_user : User.t)
  : Session (list OnCallSchedule.t) :=
  fun db => (Return (order_by_start_date_desc (oncall_schedules db)), db).

(** [list_users]. *)
Definition list_users (current_user : User.t) : Session (list User.t) :=
  query_all users (fun u => Bool.eqb (User.is_active u) true).

(** [get_current_admin_user]. *)
Definition get_current_admin_user (current_user : User.t) : Session User.t :=
  if negb (User.is_admin current_user)
  then raise (HTTPException 403 "Not enough permissions")
  else ret current_user.

(** [get_user_by_username]. *)
Definition get_user_by_username (username : string)
  : Session (option User.t) :=
  query_first users (fun u => String.eqb (User.username u) username).

(** *** Passwords and tokens *)

(** The [CryptContext] of passlib.  [hash] draws a salt, which is an
    argument here; [verify] is taken on the hashes the context produced. *)
Class CryptContext := {
  pwd_context_hash : string -> string -> string;
  pwd_context_verify : string -> string -> bool
}.

(** [verify_password]. *)
Definition verify_password `{CryptContext} (plain_password hashed_password
    : string) : bool :=
  pwd_context_verify plain_password hashed_password.

(** [get_password_hash], with the salt that [pwd_context.hash] draws. *)
Definition get_password_hash `{CryptContext} (salt password : string)
  : string :=
  pwd_context_hash salt password.

(** The claims of a token: the dictionary handed to [jwt.encode] and
    returned by [jwt.decode]. *)
Module Claims.
Record t := {
  sub : option string;
  exp : option datetime
}.
End Claims.

(** [jwt.encode(_, SECRET_KEY, algorithm=ALGORITHM)] and
    [jwt.decode(_, SECRET_KEY, algorithms=[ALGORITHM])] of python-jose.
    Decoding reads the clock to check [exp]; [None] stands for
    [JWTError]. *)
Class Jose := {
  jwt_encode : Claims.t -> string;
  jwt_decode : string -> datetime -> option Claims.t
}.

(** The response of [POST /token]. *)
Module Token.
Record t := {
  access_token : string;
  token_type : string
}.
End Token.

(** [timedelta(minutes=n)]. *)
Definition timedelta_minutes (n : Z) : Z := n * 60000000.

Definition ACCESS_TOKEN_EXPIRE_MINUTES : Z := 1440.

(** [create_access_token]; [now] is the value of [datetime.utcnow()].
    The test [if expires_delta:] fails for [None] and for a zero
    [timedelta] alike. *)
Definition create_access_token `{Jose} (now : datetime) (data : Claims.t)
    (expires_delta : option Z) : Session string :=
  expire <- match expires_delta with
            | Some delta =>
                if delta =? 0
                then datetime_add now (timedelta_minutes 15)
                else datetime_add now delta
            | None => datetime_add now (timedelta_minutes 15)
            end ;;
  ret (jwt_encode {| Claims.sub := Claims.sub data;
                     Claims.exp := Some expire |}).

(** [authenticate_user]; [None] is the [False] it returns. *)
Definition authenticate_user `{CryptContext} (username password : string)
  : Session (option User.t) :=
  user <- get_user_by_username username ;;
  match user with
  | None => ret None
  | Some user =>
      if negb (verify_password password (User.hashed_password user))
      then ret None
      else ret (Some user)
  end.

(** The [credentials_exception] of [get_current_user] and the exception
    of [login]; the [WWW-Authenticate] header they carry is left out. *)
Definition credentials_exception : exn :=
  HTTPException 401 "Could not validate credentials".

(** [get_current_user]; [now] is the clock [jwt.decode] reads. *)
Definition get_current_user `{Jose} (now : datetime) (token : string)
  : Session User.t :=
  match jwt_decode token now with
  | None => raise credentials_exception
  | Some payload =>
      match Claims.sub payload with
      | None => raise credentials_exception
      | Some username =>
          user <- get_user_by_username username ;;
          match user with
          | None => raise credentials_exception
          | Some user => ret user
          end
      end
  end.

(** [login], on the [username] and [password] of the form. *)
Definition login `{CryptContext} `{Jose} (now : datetime)
    (username password : string) : Session Token.t :=
  user <- authenticate_user username password ;;
  match user with
  | None => raise (HTTPException 401 "Incorrect username or password")
  | Some user =>
      access_token <-
        create_access_token now
          {| Claims.sub := Some (User.username user); Claims.exp := None |}
          (Some (timedelta_minutes ACCESS_TOKEN_EXPIRE_MINUTES)) ;;
      ret {| Token.access_token := access_token;
             Token.token_type := "bearer" |}
  end.

(** *** Writing [users] *)

(** The request body of [POST /users]. *)
Module UserCreate.
Record t := {
  email : string;
  username : string;
  full_name : option string;
  password : string;
  is_admin : bool
}.
End UserCreate.

(** A handler whose commit the database may refuse: [None] stands for the
    [IntegrityError] of a violated constraint, which no handler catches
    and which leaves the database as it was. *)
Definition Transaction (A : Type) : Type := Db -> option (outcome A * Db).

Definition session {A} (m : Session A) : Transaction A :=
  fun db => Some (m db).

Definition tbind {A B} (m : Transaction A) (k : A -> Transaction B)
  : Transaction B :=
  fun db =>
    match m db with
    | None => None
    | Some (Return a, db') => k a db'
    | Some (Raise e, db') => Some (Raise e, db')
    end.

Notation "x <~ m ;; k" := (tbind m (fun x => k))
  (at level 61, m at next level, right associativity) : session_scope.

(** The constraints of [users] a new row can violate: the primary key
    [id] and the unique columns [email] and [username]. *)
Definition violates_users (row u : User.t) : bool :=
  (User.id u =? User.id row)
  || String.eqb (User.email u) (User.email row)
  || String.eqb (User.username u) (User.username row).

(** [db.add(row); db.commit()] for a new user. *)
Definition add_user_commit (row : User.t) : Transaction User.t :=
  fun db =>
    if existsb (violates_users row) (users db)
    then None
    else Some (Return row,
               {| users := users db ++ [row];
                  oncall_schedules := oncall_schedules db;
                  oncall_schedules_id_seq := oncall_schedules_id_seq db |}).

(** [create_user]; [new_id] is the key the sequence of [users.id] yields,
    [now] the column default of [created_at], [salt] the salt of the
    hash. *)
Definition create_user `{CryptContext} (new_id : Z) (now : datetime)
    (salt : string) (user : UserCreate.t) (current_user : User.t)
  : Transaction User.t :=
  db_user <~ session (query_first users
               (fun u => String.eqb (User.username u)
                                    (UserCreate.username user))) ;;
  match db_user with
  | Some _ =>
      session (raise (HTTPException 400 "Username already registered"))
  | None =>
      db_user <~ session (query_first users
                   (fun u => String.eqb (User.email u)
                                        (UserCreate.email user))) ;;
      match db_user with
      | Some _ =>
          session (raise (HTTPException 400 "Email already registered"))
      | None =>
          let hashed_password :=
            get_password_hash salt (UserCreate.password user) in
          add_user_commit
            {| User.id := new_id;
               User.email := UserCreate.email user;
               User.username := UserCreate.username user;
               User.hashed_password := hashed_password;
               User.full_name := UserCreate.full_name user;
               User.is_admin := UserCreate.is_admin user;
               User.is_active := true;
               User.created_at := now |}
      end
  end.

(** The administrator [startup] creates. *)
Definition default_admin `{CryptContext} (new_id : Z) (now : datetime)
    (salt : string) : User.t :=
  {| User.id := new_id;
     User.email := "admin@oncall.devops";
     User.username := "admin";
     User.hashed_password := get_password_hash salt "admin123";
     User.full_name := Some "System Administrator";
     User.is_admin := true;
     User.is_active := true;
     User.created_at := now |}.

(** [startup], on the tables [create_all] found or made. *)
Definition startup `{CryptContext} (new_id : Z) (now : datetime)
    (salt : string) : Transaction unit :=
  admin <~ session (query_first users
             (fun u => String.eqb (User.username u) "admin")) ;;
  match admin with
  | Some _ => session (ret tt)
  | None =>
      _ <~ add_user_commit (default_admin new_id now salt) ;;
      session (ret tt)
  end.

(** *** Dependencies *)

(** An endpoint that declares [Depends(get_current_admin_user)], which
    itself depends on [get_current_user]: the token is resolved to a user,
    and the user checked, before the handler is called. *)
Definition depends_current_admin_user `{Jose} {A} (clock : datetime)
    (token : string) (handler : User.t -> Session A) : Session A :=
  current_user <- get_current_user clock token ;;
  current_user <- get_current_admin_user current_user ;;
  handler current_user.

(** [POST /oncall]. *)
Definition post_oncall `{Jose} (clock : datetime) (token : string)
    (now : datetime) (schedule : OnCallScheduleCreate.t)
  : Session OnCallSchedule.t :=
  depends_current_admin_user clock token (create_oncall_schedule now schedule).

(** [DELETE /oncall/{schedule_id}]. *)
Definition delete_oncall `{Jose} (clock : datetime) (token : string)
    (schedule_id : Z) : Session string :=
  depends_current_admin_user clock token (delete_oncall_schedule schedule_id).

(** [POST /users]. *)
Definition post_users `{CryptContext} `{Jose} (clock : datetime)
    (token : string) (new_id : Z) (now : datetime) (salt : string)
    (user : UserCreate.t) : Transaction User.t :=
  current_user <~ session (depends_current_admin_user clock token ret) ;;
  create_user new_id now salt user current_user.

(** ** The store as a state machine *)

(** Two stored schedules overlap: the condition of the overlap query
    (lines 271-272) read between two rows. *)
Definition overlap (S1 S2 : OnCallSchedule.t) : bool :=
  (OnCallSchedule.start_date S1 <? OnCallSchedule.end_date S2)
  && (OnCallSchedule.end_date S1 >? OnCallSchedule.start_date S2).

(** The writes of the schedule store, each with the arguments its handler
    receives. *)
Inductive request :=
| Create (now : datetime) (schedule : OnCallScheduleCreate.t)
         (current_user : User.t)
| Delete (schedule_id : Z) (current_user : User.t).

(** The database a request leaves behind, whether it returned or raised. *)
Definition handle (r : request) (db : Db) : Db :=
  match r with
  | Create now schedule current_user =>
      snd (create_oncall_schedule now schedule current_user db)
  | Delete schedule_id current_user =>
      snd (delete_oncall_schedule schedule_id current_user db)
  end.

(** The requests of [rs] handled one after the other, in order. *)
Definition run (rs : list request) (db : Db) : Db :=
  fold_left (fun db r => handle r db) rs db.

(** No two distinct rows of one user overlap. *)
Definition no_overlap (l : list OnCallSchedule.t) : Prop :=
  forall S1 S2,
    In S1 l -> In S2 l ->
    OnCallSchedule.user_id S1 = OnCallSchedule.user_id S2 ->
    S1 <> S2 ->
    overlap S1 S2 = false.

(** [user_id = Column(Integer, ForeignKey("users.id"), nullable=False)]:
    every schedule refers to a row of [users]. *)
Definition foreign_key (db : Db) : Prop :=
  forall s, In s (oncall_schedules db) ->
    exists u, In u (users db) /\ User.id u = OnCallSchedule.user_id s.

(** [id = Column(Integer, primary_key=True)]: the keys of the stored
    schedules are pairwise distinct, and the sequence is ahead of them. *)
Definition primary_key (db : Db) : Prop :=
  NoDup (map OnCallSchedule.id (oncall_schedules db))
  /\ forall s, In s (oncall_schedules db) ->
       OnCallSchedule.id s < oncall_schedules_id_seq db.

(** The row [create_oncall_schedule] builds for a request, given its key. *)
Definition new_schedule (now : datetime) (schedule : OnCallScheduleCreate.t)
    (current_user : User.t) (new_id : Z) : OnCallSchedule.t :=
  {| OnCallSchedule.id := new_id;
     OnCallSchedule.user_id := OnCallScheduleCreate.user_id schedule;
     OnCallSchedule.start_date := OnCallScheduleCreate.start_date schedule;
     OnCallSchedule.end_date := OnCallScheduleCreate.end_date schedule;
     OnCallSchedule.notes := OnCallScheduleCreate.notes schedule;
     OnCallSchedule.created_by := User.id current_user;
     OnCallSchedule.created_at := now |}.

(** Seen from a database [d0], a later database holds rows of [d0] and
    rows whose key the sequence of [d0] had not yet given out. *)
Definition later_than (d0 d : Db) : Prop :=
  oncall_schedules_id_seq d0 <= oncall_schedules_id_seq d
  /\ forall s, In s (oncall_schedules d) ->
       In s (oncall_schedules d0)
       \/ oncall_schedules_id_seq d0 <= OnCallSchedule.id s.

(** [id = Column(Integer, primary_key=True)], [email = Column(String,
    unique=True)] and [username = Column(String, unique=True)] on
    [users]. *)
Definition users_unique (db : Db) : Prop :=
  NoDup (map User.id (users db))
  /\ NoDup (map User.username (users db))
  /\ NoDup (map User.email (users db)).

(** ** Sample data *)

Module Sample.

Definition mk_user (i : Z) (name : string) (admin : bool) : User.t :=
  {| User.id := i;
     User.email := (name ++ "@oncall.devops")%string;
     User.username := name;
     User.hashed_password := "bcrypt-sha256-digest";
     User.full_name := None;
     User.is_admin := admin;
     User.is_active := true;
     User.created_at := 0 |}.

Definition admin : User.t := mk_user 1 "admin" true.
Definition alice : User.t := mk_user 2 "alice" false.
Definition bob : User.t := mk_user 3 "bob" false.

(** Midnight of day [d], counted from [datetime.min]. *)
Definition day (d : Z) : datetime := d * MICROSECONDS_PER_DAY.

Definition shift (u : User.t) (from to : Z) : OnCallScheduleCreate.t :=
  {| OnCallScheduleCreate.user_id := User.id u;
     OnCallScheduleCreate.start_date := day from;
     OnCallScheduleCreate.end_date := day to;
     OnCallScheduleCreate.notes := None |}.

Definition db0 : Db :=
  {| users := [admin; alice; bob];
     oncall_schedules := [];
     oncall_schedules_id_seq := 1 |}.

(** Alice is on call over days [10, 17), Bob over [14, 21). *)
Definition db2 : Db :=
  run [Create 5 (shift alice 10 17) admin;
       Create 6 (shift bob 14 21) admin] db0.

Definition alice_row : OnCallSchedule.t :=
  new_schedule 5 (shift alice 10 17) admin 1.

Definition bob_row : OnCallSchedule.t :=
  new_schedule 6 (shift bob 14 21) admin 2.

(** Alice alone, over days [10, 17). *)
Definition db1 : Db := run [Create 5 (shift alice 10 17) admin] db0.

(** Alice is given [10, 17), refused [14, 21), given [17, 24); a delete
    of a key that is not stored follows. *)
Definition alice_requests : list request :=
  [Create 5 (shift alice 10 17) admin;
   Create 6 (shift alice 14 21) admin;
   Create 7 (shift alice 17 24) admin;
   Delete 9999 admin].

Definition alice_next_row : OnCallSchedule.t :=
  new_schedule 7 (shift alice 17 24) admin 2.

(** A request for a user that [users] does not hold. *)
Definition stranger_shift : OnCallScheduleCreate.t :=
  {| OnCallScheduleCreate.user_id := 42;
     OnCallScheduleCreate.start_date := day 10;
     OnCallScheduleCreate.end_date := day 17;
     OnCallScheduleCreate.notes := Some "nobody" |}.

(** A table in which a schedule of that user was left behind, over the
    very days of the request. *)
Definition orphan_db : Db :=
  {| users := [admin; alice; bob];
     oncall_schedules :=
       [{| OnCallSchedule.id := 1;
           OnCallSchedule.user_id := 42;
           OnCallSchedule.start_date := day 10;
           OnCallSchedule.end_date := day 17;
           OnCallSchedule.notes := None;
           OnCallSchedule.created_by := 1;
           OnCallSchedule.created_at := 5 |}];
     oncall_schedules_id_seq := 2 |}.

(** Noon of day 18. *)
Definition noon18 : datetime := day 18 + 43200000000.

(** A context that stores the password behind its salt and compares the
    stored text with what the same salt would give. *)
Definition plain_context : CryptContext :=
  {| pwd_context_hash := fun salt secret => String.append salt secret;
     pwd_context_verify := fun secret hashed =>
       String.eqb (String.append "salt:" secret) hashed |}.

(** Tokens that are the subject itself and never expire. *)
Definition plain_jose : Jose :=
  {| jwt_encode := fun claims =>
       match Claims.sub claims with
       | Some subject => String.append "sub=" subject
       | None => "anonymous"
       end;
     jwt_decode := fun token _ =>
       match token with
       | String "s"%char
           (String "u"%char (String "b"%char (String "="%char subject))) =>
           Some {| Claims.sub := Some subject; Claims.exp := None |}
       | _ => None
       end |}.

(** The request that registers Carol. *)
Definition carol_request : UserCreate.t :=
  {| UserCreate.email := "carol@oncall.devops";
     UserCreate.username := "carol";
     UserCreate.full_name := Some "Carol";
     UserCreate.password := "s3cret";
     UserCreate.is_admin := false |}.

Definition carol : User.t :=
  {| User.id := 4;
     User.email := "carol@oncall.devops";
     User.username := "carol";
     User.hashed_password := "salt:s3cret";
     User.full_name := Some "Carol";
     User.is_admin := false;
     User.is_active := true;
     User.created_at := 8 |}.

(** [db2] once Carol is registered. *)
Definition db3 : Db :=
  {| users := users db2 ++ [carol];
     oncall_schedules := oncall_schedules db2;
     oncall_schedules_id_seq := oncall_schedules_id_seq db2 |}.

(** A database with the tables just made. *)
Definition fresh_db : Db :=
  {| users := []; oncall_schedules := []; oncall_schedules_id_seq := 1 |}.

End Sample.

(** ** Lists and queries *)

Lemma find_is_none {A} (p : A -> bool) (l : list A) :
  (forall x, In x l -> p x = false) -> find p l = None.
Proof.
  induction l as [| a l IH]; intros H; simpl; [reflexivity |].
  rewrite (H a (or_introl eq_refl)).
  apply IH. intros x Hx. apply H. now right.
Qed.

Lemma find_is_some {A} (p : A -> bool) (l : list A) (x : A) :
  In x l -> p x = true -> exists y, find p l = Some y.
Proof.
  intros Hx Hp.
  destruct (find p l) as [y |] eqn:E; [now exists y |].
  rewrite (find_none _ _ E x Hx) in Hp. discriminate.
Qed.

Lemma overlaps_request_true schedule s :
  overlaps_request schedule s = true <->
  OnCallSchedule.user_id s = OnCallScheduleCreate.user_id schedule
  /\ OnCallSchedule.start_date s < OnCallScheduleCreate.end_date schedule
  /\ OnCallSchedule.end_date s > OnCallScheduleCreate.start_date schedule.
Proof.
  unfold overlaps_request.
  rewrite !andb_true_iff, Z.eqb_eq, Z.ltb_lt, Z.gtb_ltb, Z.ltb_lt.
  lia.
Qed.

Lemma overlap_true S1 S2 :
  overlap S1 S2 = true <->
  OnCallSchedule.start_date S1 < OnCallSchedule.end_date S2
  /\ OnCallSchedule.end_date S1 > OnCallSchedule.start_date S2.
Proof.
  unfold overlap. rewrite andb_true_iff, Z.ltb_lt, Z.gtb_ltb, Z.ltb_lt. lia.
Qed.

Lemma overlap_sym S1 S2 : overlap S1 S2 = overlap S2 S1.
Proof.
  unfold overlap. rewrite !Z.gtb_ltb. apply andb_comm.
Qed.

(** The overlap query against the request is [overlap] against the row
    the request would become. *)
Lemma overlaps_request_new now schedule cu i s :
  overlaps_request schedule s =
  (OnCallSchedule.user_id s =? OnCallScheduleCreate.user_id schedule)
  && overlap s (new_schedule now schedule cu i).
Proof.
  unfold overlaps_request, overlap. simpl. now rewrite andb_assoc.
Qed.

(** ** The three ways [create_oncall_schedule] ends *)

Lemma create_user_missing now schedule cu db :
  find (fun u => User.id u =? OnCallScheduleCreate.user_id schedule) (users db)
    = None ->
  create_oncall_schedule now schedule cu db
    = (Raise (HTTPException 404 "User not found"), db).
Proof.
  intros E. unfold create_oncall_schedule, bind, query_first.
  now rewrite E.
Qed.

Lemma create_overlapping now schedule cu db u s :
  find (fun u => User.id u =? OnCallScheduleCreate.user_id schedule) (users db)
    = Some u ->
  find (overlaps_request schedule) (oncall_schedules db) = Some s ->
  create_oncall_schedule now schedule cu db
    = (Raise (HTTPException 400 "Schedule overlaps with existing schedule"), db).
Proof.
  intros Eu Es. unfold create_oncall_schedule, bind, query_first.
  now rewrite Eu, Es.
Qed.

Lemma create_stored now schedule cu db u :
  find (fun u => User.id u =? OnCallScheduleCreate.user_id schedule) (users db)
    = Some u ->
  find (overlaps_request schedule) (oncall_schedules db) = None ->
  create_oncall_schedule now schedule cu db
    = (Return (new_schedule now schedule cu (oncall_schedules_id_seq db)),
       {| users := users db;
          oncall_schedules :=
            oncall_schedules db
            ++ [new_schedule now schedule cu (oncall_schedules_id_seq db)];
          oncall_schedules_id_seq := oncall_schedules_id_seq db + 1 |}).
Proof.
  intros Eu Es. unfold create_oncall_schedule, bind, query_first.
  now rewrite Eu, Es.
Qed.

(** Whatever it does, [create_oncall_schedule] either leaves the database
    as it is or appends the new row. *)
Lemma create_db now schedule cu db :
  snd (create_oncall_schedule now schedule cu db) = db
  \/ (find (overlaps_request schedule) (oncall_schedules db) = None
      /\ (exists u, In u (users db)
                    /\ User.id u = OnCallScheduleCreate.user_id schedule)
      /\ snd (create_oncall_schedule now schedule cu db)
         = {| users := users db;
              oncall_schedules :=
                oncall_schedules db
                ++ [new_schedule now schedule cu (oncall_schedules_id_seq db)];
              oncall_schedules_id_seq := oncall_schedules_id_seq db + 1 |}).
Proof.
  destruct (find (fun u => User.id u =? OnCallScheduleCreate.user_id schedule)
                 (users db)) as [u |] eqn:Eu.
  - destruct (find (overlaps_request schedule) (oncall_schedules db))
      as [s |] eqn:Es.
    + left. now rewrite (create_overlapping _ _ _ _ _ _ Eu Es).
    + right. split; [reflexivity |]. split.
      * apply find_some in Eu. destruct Eu as [Hin Hid].
        exists u. split; [assumption |]. now apply Z.eqb_eq.
      * now rewrite (create_stored _ _ _ _ _ Eu Es).
  - left. now rewrite (create_user_missing _ _ _ _ Eu).
Qed.

(** The two ways [delete_oncall_schedule] ends. *)
Lemma delete_missing schedule_id cu db :
  find (fun s => OnCallSchedule.id s =? schedule_id) (oncall_schedules db)
    = None ->
  delete_oncall_schedule schedule_id cu db
    = (Raise (HTTPException 404 "Schedule not found"), db).
Proof.
  intros E. unfold delete_oncall_schedule, bind, query_first.
  now rewrite E.
Qed.

Lemma delete_found schedule_id cu db s :
  find (fun s => OnCallSchedule.id s =? schedule_id) (oncall_schedules db)
    = Some s ->
  delete_oncall_schedule schedule_id cu db
    = (Return "Schedule deleted successfully",
       {| users := users db;
          oncall_schedules :=
            filter (fun s => negb (OnCallSchedule.id s =? schedule_id))
                   (oncall_schedules db);
          oncall_schedules_id_seq := oncall_schedules_id_seq db |}).
Proof.
  intros E. unfold delete_oncall_schedule, bind, query_first.
  rewrite E. simpl.
  apply find_some in E. destruct E as [_ E]. apply Z.eqb_eq in E.
  now rewrite E.
Qed.

Lemma delete_db schedule_id cu db :
  snd (delete_oncall_schedule schedule_id cu db) = db
  \/ snd (delete_oncall_schedule schedule_id cu db)
     = {| users := users db;
          oncall_schedules :=
            filter (fun s => negb (OnCallSchedule.id s =? schedule_id))
                   (oncall_schedules db);
          oncall_schedules_id_seq := oncall_schedules_id_seq db |}.
Proof.
  destruct (find (fun s => OnCallSchedule.id s =? schedule_id)
                 (oncall_schedules db)) as [s |] eqn:E.
  - right. now rewrite (delete_found _ _ _ _ E).
  - left. now rewrite (delete_missing _ _ _ E).
Qed.

(** ** Invariants of the store *)

Section Invariants.

Variable P : Db -> Prop.
Hypothesis P_handle : forall r db, P db -> P (handle r db).

Lemma run_preserves rs : forall db, P db -> P (run rs db).
Proof.
  unfold run.
  induction rs as [| r rs IH]; intros db H; simpl; [assumption |].
  apply IH, P_handle, H.
Qed.

End Invariants.

Lemma no_overlap_nil : no_overlap [].
Proof. intros S1 S2 []. Qed.

Lemma no_overlap_filter p l : no_overlap l -> no_overlap (filter p l).
Proof.
  intros H S1 S2 H1 H2.
  apply filter_In in H1, H2. apply H; tauto.
Qed.

(** Appending a row that the overlap query did not match keeps the rows
    free of overlaps. *)
Lemma no_overlap_snoc now schedule cu i l :
  no_overlap l ->
  find (overlaps_request schedule) l = None ->
  no_overlap (l ++ [new_schedule now schedule cu i]).
Proof.
  intros H Hnone S1 S2 H1 H2 Hu Hne.
  assert (Hold : forall s, In s l ->
            OnCallSchedule.user_id s = OnCallScheduleCreate.user_id schedule ->
            overlap s (new_schedule now schedule cu i) = false).
  { intros s Hs Hsu.
    pose proof (find_none _ _ Hnone s Hs) as Hq.
    rewrite (overlaps_request_new now schedule cu i) in Hq.
    apply Z.eqb_eq in Hsu. now rewrite Hsu in Hq. }
  apply in_app_or in H1, H2.
  destruct H1 as [H1 | [H1 | []]], H2 as [H2 | [H2 | []]]; subst.
  - now apply H.
  - now apply Hold.
  - rewrite overlap_sym. apply Hold; [assumption | now symmetry].
  - contradiction.
Qed.

Lemma handle_no_overlap r db :
  no_overlap (oncall_schedules db) ->
  no_overlap (oncall_schedules (handle r db)).
Proof.
  intros H. destruct r as [now schedule cu | schedule_id cu]; simpl.
  - destruct (create_db now schedule cu db) as [E | (Hnone & _ & E)];
      rewrite E; [assumption |].
    now apply no_overlap_snoc.
  - destruct (delete_db schedule_id cu db) as [E | E];
      rewrite E; [assumption |].
    now apply no_overlap_filter.
Qed.

Lemma handle_foreign_key r db : foreign_key db -> foreign_key (handle r db).
Proof.
  intros H. destruct r as [now schedule cu | schedule_id cu]; simpl.
  - destruct (create_db now schedule cu db) as [E | (_ & Hu & E)];
      rewrite E; [assumption |].
    intros s Hs. simpl in *. apply in_app_or in Hs.
    destruct Hs as [Hs | [Hs | []]]; [now apply H |].
    subst s. exact Hu.
  - destruct (delete_db schedule_id cu db) as [E | E];
      rewrite E; [assumption |].
    intros s Hs. simpl in *. apply filter_In in Hs. now apply H.
Qed.

(** Deleting rows keeps the keys of the remaining rows distinct. *)
Lemma filter_distinct_ids (keep : OnCallSchedule.t -> bool)
    (rows : list OnCallSchedule.t) :
  NoDup (map OnCallSchedule.id rows) ->
  NoDup (map OnCallSchedule.id (filter keep rows)).
Proof.
  intros Hnd. induction rows as [| row rows IH]; simpl; [constructor |].
  simpl in Hnd. apply NoDup_cons_iff in Hnd. destruct Hnd as [Hfresh Hnd].
  destruct (keep row); simpl; [| now apply IH].
  apply NoDup_cons; [| now apply IH].
  rewrite in_map_iff. intros (s & Hid & Hs).
  apply filter_In in Hs. apply Hfresh.
  rewrite <- Hid. apply in_map. tauto.
Qed.

Lemma handle_primary_key r db : primary_key db -> primary_key (handle r db).
Proof.
  intros [Hnd Hlt]. destruct r as [now schedule cu | schedule_id cu]; simpl.
  - destruct (create_db now schedule cu db) as [E | (_ & _ & E)];
      rewrite E; [now split |].
    split; simpl.
    + rewrite map_app. simpl.
      apply NoDup_app; [assumption | repeat constructor; intros [] |].
      intros i Hi [Hi' | []]. subst i.
      apply in_map_iff in Hi. destruct Hi as (s & Hs & Hin).
      specialize (Hlt s Hin). lia.
    + intros s Hs. apply in_app_or in Hs.
      destruct Hs as [Hs | [Hs | []]]; [specialize (Hlt s Hs); lia |].
      subst s. simpl. lia.
  - destruct (delete_db schedule_id cu db) as [E | E];
      rewrite E; [now split |].
    split; simpl.
    + now apply filter_distinct_ids.
    + intros s Hs. apply filter_In in Hs. now apply Hlt.
Qed.

(** A store with no schedule satisfies all three. *)
Lemma empty_store_invariants db :
  oncall_schedules db = [] ->
  no_overlap (oncall_schedules db) /\ foreign_key db /\ primary_key db.
Proof.
  intros E. unfold foreign_key, primary_key. rewrite E.
  repeat split; try constructor; try (intros ? []). apply no_overlap_nil.
Qed.

Lemma run_foreign_key rs db :
  oncall_schedules db = [] -> foreign_key (run rs db).
Proof.
  intros E. apply run_preserves; [apply handle_foreign_key |].
  now apply empty_store_invariants.
Qed.

Lemma run_primary_key rs db :
  oncall_schedules db = [] -> primary_key (run rs db).
Proof.
  intros E. apply run_preserves; [apply handle_primary_key |].
  now apply empty_store_invariants.
Qed.

(** ** The non-overlap invariant *)

(** C1.  Starting from a store with no schedule, after every sequence of
    create and delete requests, two distinct stored schedules of the same
    user never overlap: there [S1.start_date < S2.end_date] and
    [S1.end_date > S2.start_date] do not both hold. *)
Theorem no_overlap_invariant (db : Db) (rs : list request)
    (S1 S2 : OnCallSchedule.t) :
  oncall_schedules db = [] ->
  In S1 (oncall_schedules (run rs db)) ->
  In S2 (oncall_schedules (run rs db)) ->
  OnCallSchedule.user_id S1 = OnCallSchedule.user_id S2 ->
  S1 <> S2 ->
  ~ (OnCallSchedule.start_date S1 < OnCallSchedule.end_date S2
     /\ OnCallSchedule.end_date S1 > OnCallSchedule.start_date S2).
Proof.
  intros E H1 H2 Hu Hne.
  rewrite <- overlap_true. apply not_true_iff_false.
  revert S1 S2 H1 H2 Hu Hne.
  apply (run_preserves (fun db => no_overlap (oncall_schedules db))).
  - apply handle_no_overlap.
  - rewrite E. apply no_overlap_nil.
Qed.

Lemma no_overlap_invariant_witness :
  In Sample.alice_row
     (oncall_schedules (run Sample.alice_requests Sample.db0))
  /\ In Sample.alice_next_row
        (oncall_schedules (run Sample.alice_requests Sample.db0))
  /\ ~ (OnCallSchedule.start_date Sample.alice_row
          < OnCallSchedule.end_date Sample.alice_next_row
        /\ OnCallSchedule.end_date Sample.alice_row
           > OnCallSchedule.start_date Sample.alice_next_row).
Proof.
  assert (H1 : In Sample.alice_row
                 (oncall_schedules (run Sample.alice_requests Sample.db0)))
    by (vm_compute; auto).
  assert (H2 : In Sample.alice_next_row
                 (oncall_schedules (run Sample.alice_requests Sample.db0)))
    by (vm_compute; auto).
  split; [exact H1 | split; [exact H2 |]].
  apply (no_overlap_invariant Sample.db0 Sample.alice_requests
           Sample.alice_row Sample.alice_next_row eq_refl H1 H2 eq_refl).
  discriminate.
Defined.

(** ** Creating a schedule *)

Lemma find_user_some (k : Z) (us : list User.t) :
  (exists u, In u us /\ User.id u = k) ->
  exists u, find (fun u => User.id u =? k) us = Some u.
Proof.
  intros (u & Hin & Hid).
  apply (find_is_some _ _ u Hin). now apply Z.eqb_eq.
Qed.

Lemma find_overlap_none schedule (l : list OnCallSchedule.t) :
  (forall s, In s l ->
     OnCallSchedule.user_id s = OnCallScheduleCreate.user_id schedule ->
     ~ (OnCallSchedule.start_date s < OnCallScheduleCreate.end_date schedule
        /\ OnCallSchedule.end_date s
           > OnCallScheduleCreate.start_date schedule)) ->
  find (overlaps_request schedule) l = None.
Proof.
  intros H. apply find_is_none. intros s Hs.
  apply not_true_iff_false. rewrite overlaps_request_true.
  intros (Hu & Hlt & Hgt). now apply (H s Hs Hu).
Qed.

(** A request of an existing user that overlaps none of that user's
    schedules is stored, whatever else the table holds. *)
Lemma create_accepted now schedule cu db :
  (exists u, In u (users db)
             /\ User.id u = OnCallScheduleCreate.user_id schedule) ->
  (forall s, In s (oncall_schedules db) ->
     OnCallSchedule.user_id s = OnCallScheduleCreate.user_id schedule ->
     ~ (OnCallSchedule.start_date s < OnCallScheduleCreate.end_date schedule
        /\ OnCallSchedule.end_date s
           > OnCallScheduleCreate.start_date schedule)) ->
  create_oncall_schedule now schedule cu db
    = (Return (new_schedule now schedule cu (oncall_schedules_id_seq db)),
       {| users := users db;
          oncall_schedules :=
            oncall_schedules db
            ++ [new_schedule now schedule cu (oncall_schedules_id_seq db)];
          oncall_schedules_id_seq := oncall_schedules_id_seq db + 1 |}).
Proof.
  intros Hu Hno.
  destruct (find_user_some _ _ Hu) as [u Eu].
  apply (create_stored _ _ _ _ u Eu).
  now apply find_overlap_none.
Qed.

(** When [create_oncall_schedule] raises, the user is missing or one of
    the user's schedules overlaps the request. *)
Lemma create_raises now schedule cu db e :
  fst (create_oncall_schedule now schedule cu db) = Raise e ->
  (forall u, In u (users db) ->
     User.id u <> OnCallScheduleCreate.user_id schedule)
  \/ (exists s, In s (oncall_schedules db)
        /\ OnCallSchedule.user_id s = OnCallScheduleCreate.user_id schedule
        /\ OnCallSchedule.start_date s < OnCallScheduleCreate.end_date schedule
        /\ OnCallSchedule.end_date s
           > OnCallScheduleCreate.start_date schedule).
Proof.
  intros H.
  destruct (find (fun u => User.id u =? OnCallScheduleCreate.user_id schedule)
                 (users db)) as [u |] eqn:Eu.
  - destruct (find (overlaps_request schedule) (oncall_schedules db))
      as [s |] eqn:Es.
    + right. apply find_some in Es. destruct Es as [Hin Hs].
      exists s. split; [assumption |]. now apply overlaps_request_true.
    + rewrite (create_stored _ _ _ _ _ Eu Es) in H. discriminate.
  - left. intros u Hin Hid.
    pose proof (find_none _ _ Eu u Hin) as Hq. simpl in Hq.
    apply Z.eqb_eq in Hid. congruence.
Qed.

(** C2.  In a database that satisfies the foreign key of
    [oncall_schedules.user_id], a create request that overlaps a stored
    schedule of the same user ([existing.start_date < end_date] and
    [existing.end_date > start_date]) raises HTTP 400 "Schedule overlaps
    with existing schedule" and leaves the database as it was. *)
Theorem create_overlap_rejected now schedule cu db existing :
  foreign_key db ->
  In existing (oncall_schedules db) ->
  OnCallSchedule.user_id existing = OnCallScheduleCreate.user_id schedule ->
  OnCallSchedule.start_date existing < OnCallScheduleCreate.end_date schedule ->
  OnCallSchedule.end_date existing > OnCallScheduleCreate.start_date schedule ->
  create_oncall_schedule now schedule cu db
    = (Raise (HTTPException 400 "Schedule overlaps with existing schedule"),
       db).
Proof.
  intros Hfk Hin Hu Hlt Hgt.
  destruct (Hfk existing Hin) as (u & Hu_in & Hu_id).
  destruct (find_user_some (OnCallScheduleCreate.user_id schedule) (users db))
    as [u' Eu]; [exists u; split; [assumption | congruence] |].
  destruct (find_is_some (overlaps_request schedule) _ existing Hin)
    as [s Es]; [now apply overlaps_request_true |].
  exact (create_overlapping _ _ _ _ _ _ Eu Es).
Qed.

Lemma create_overlap_rejected_witness :
  create_oncall_schedule 6 (Sample.shift Sample.alice 14 21) Sample.admin
                         Sample.db2
    = (Raise (HTTPException 400 "Schedule overlaps with existing schedule"),
       Sample.db2).
Proof.
  apply (create_overlap_rejected 6 (Sample.shift Sample.alice 14 21)
           Sample.admin Sample.db2 Sample.alice_row).
  - apply run_foreign_key. reflexivity.
  - vm_compute. auto.
  - reflexivity.
  - vm_compute. reflexivity.
  - vm_compute. reflexivity.
Defined.

(** C7.  The user is looked up first: a create request whose [user_id]
    is the key of no row of [users] raises HTTP 404 "User not found", in
    every database, and leaves the database as it was. *)
Theorem create_unknown_user now schedule cu db :
  (forall u, In u (users db) ->
     User.id u <> OnCallScheduleCreate.user_id schedule) ->
  create_oncall_schedule now schedule cu db
    = (Raise (HTTPException 404 "User not found"), db).
Proof.
  intros H. apply create_user_missing. apply find_is_none.
  intros u Hin. apply Z.eqb_neq. now apply H.
Qed.

Lemma create_unknown_user_witness :
  find (overlaps_request Sample.stranger_shift)
       (oncall_schedules Sample.orphan_db) <> None
  /\ create_oncall_schedule 6 Sample.stranger_shift Sample.admin
                            Sample.orphan_db
     = (Raise (HTTPException 404 "User not found"), Sample.orphan_db).
Proof.
  split; [vm_compute; discriminate |].
  apply (create_unknown_user 6 Sample.stranger_shift Sample.admin
           Sample.orphan_db).
  intros u Hin. vm_compute in Hin.
  destruct Hin as [E | [E | [E | []]]]; subst u; discriminate.
Defined.

(** C6.  A create request of an existing user that overlaps a stored
    schedule of another user, and none of its own user's, returns the new
    row and stores it next to the schedule it overlaps. *)
Theorem create_cross_user_overlap now schedule cu db other :
  (exists u, In u (users db)
             /\ User.id u = OnCallScheduleCreate.user_id schedule) ->
  In other (oncall_schedules db) ->
  OnCallSchedule.user_id other <> OnCallScheduleCreate.user_id schedule ->
  OnCallSchedule.start_date other < OnCallScheduleCreate.end_date schedule ->
  OnCallSchedule.end_date other > OnCallScheduleCreate.start_date schedule ->
  (forall s, In s (oncall_schedules db) ->
     OnCallSchedule.user_id s = OnCallScheduleCreate.user_id schedule ->
     ~ (OnCallSchedule.start_date s < OnCallScheduleCreate.end_date schedule
        /\ OnCallSchedule.end_date s
           > OnCallScheduleCreate.start_date schedule)) ->
  exists row db',
    create_oncall_schedule now schedule cu db = (Return row, db')
    /\ row = new_schedule now schedule cu (oncall_schedules_id_seq db)
    /\ oncall_schedules db' = oncall_schedules db ++ [row]
    /\ In row (oncall_schedules db')
    /\ In other (oncall_schedules db')
    /\ overlap other row = true.
Proof.
  intros Hu Hin Hne Hlt Hgt Hno.
  eexists. eexists.
  split; [exact (create_accepted now schedule cu db Hu Hno) |].
  split; [reflexivity |]. split; [reflexivity |]. simpl.
  split; [apply in_or_app; right; now left |].
  split; [apply in_or_app; now left |].
  apply overlap_true. simpl. lia.
Qed.

Lemma create_cross_user_overlap_witness :
  exists row db',
    create_oncall_schedule 6 (Sample.shift Sample.bob 14 21) Sample.admin
                           Sample.db1 = (Return row, db')
    /\ row = Sample.bob_row
    /\ oncall_schedules db' = oncall_schedules Sample.db1 ++ [row]
    /\ In row (oncall_schedules db')
    /\ In Sample.alice_row (oncall_schedules db')
    /\ overlap Sample.alice_row row = true.
Proof.
  apply (create_cross_user_overlap 6 (Sample.shift Sample.bob 14 21)
           Sample.admin Sample.db1 Sample.alice_row).
  - exists Sample.bob. split; [vm_compute; auto | reflexivity].
  - vm_compute. auto.
  - discriminate.
  - vm_compute. reflexivity.
  - vm_compute. reflexivity.
  - intros s Hin Hu. vm_compute in Hin.
    destruct Hin as [E | []]. subst s. discriminate.
Defined.

(** C10.  A create request of an existing user [u] that starts exactly
    where a stored schedule [S] of [u] ends, and overlaps no other schedule
    of [u], passes the overlap query and is stored: the comparisons of the
    query are strict. *)
Theorem create_abutting_accepted now schedule cu db S :
  (exists u, In u (users db)
             /\ User.id u = OnCallScheduleCreate.user_id schedule) ->
  In S (oncall_schedules db) ->
  OnCallSchedule.user_id S = OnCallScheduleCreate.user_id schedule ->
  OnCallScheduleCreate.start_date schedule = OnCallSchedule.end_date S ->
  (forall s, In s (oncall_schedules db) -> s <> S ->
     OnCallSchedule.user_id s = OnCallScheduleCreate.user_id schedule ->
     ~ (OnCallSchedule.start_date s < OnCallScheduleCreate.end_date schedule
        /\ OnCallSchedule.end_date s
           > OnCallScheduleCreate.start_date schedule)) ->
  overlaps_request schedule S = false
  /\ find (overlaps_request schedule) (oncall_schedules db) = None
  /\ exists row db',
       create_oncall_schedule now schedule cu db = (Return row, db')
       /\ row = new_schedule now schedule cu (oncall_schedules_id_seq db)
       /\ oncall_schedules db' = oncall_schedules db ++ [row].
Proof.
  intros Hu Hin HuS Hstart Hothers.
  assert (HS : overlaps_request schedule S = false).
  { apply not_true_iff_false. rewrite overlaps_request_true. lia. }
  assert (Hno : forall s, In s (oncall_schedules db) ->
     OnCallSchedule.user_id s = OnCallScheduleCreate.user_id schedule ->
     ~ (OnCallSchedule.start_date s < OnCallScheduleCreate.end_date schedule
        /\ OnCallSchedule.end_date s
           > OnCallScheduleCreate.start_date schedule)).
  { intros s Hs Hsu Hov.
    assert (Hq : overlaps_request schedule s = true)
      by (apply overlaps_request_true; tauto).
    destruct (Z.eq_dec (OnCallSchedule.end_date s) (OnCallSchedule.end_date S))
      as [E | E].
    - lia.
    - apply (Hothers s Hs); [congruence | assumption | assumption]. }
  split; [exact HS |]. split; [now apply find_overlap_none |].
  eexists. eexists.
  split; [exact (create_accepted now schedule cu db Hu Hno) |].
  split; reflexivity.
Qed.

Lemma create_abutting_accepted_witness :
  overlaps_request (Sample.shift Sample.alice 17 24) Sample.alice_row = false
  /\ find (overlaps_request (Sample.shift Sample.alice 17 24))
          (oncall_schedules Sample.db2) = None
  /\ exists row db',
       create_oncall_schedule 7 (Sample.shift Sample.alice 17 24)
                              Sample.admin Sample.db2 = (Return row, db')
       /\ row = new_schedule 7 (Sample.shift Sample.alice 17 24) Sample.admin
                             (oncall_schedules_id_seq Sample.db2)
       /\ oncall_schedules db' = oncall_schedules Sample.db2 ++ [row].
Proof.
  apply (create_abutting_accepted 7 (Sample.shift Sample.alice 17 24)
           Sample.admin Sample.db2 Sample.alice_row).
  - exists Sample.alice. split; [vm_compute; auto | reflexivity].
  - vm_compute. auto.
  - reflexivity.
  - reflexivity.
  - intros s Hin Hne Hu. vm_compute in Hin.
    destruct Hin as [E | [E | []]]; subst s;
      [now elim Hne | discriminate].
Defined.

(** C4 as the specification has it fails: no request is refused for
    having [end_date <= start_date].  On a store with no schedule, a
    request of Alice from day 12 back to day 10 is stored. *)
Lemma create_end_before_start_not_rejected :
  ~ (forall now schedule cu db,
       OnCallScheduleCreate.end_date schedule
         <= OnCallScheduleCreate.start_date schedule ->
       exists e,
         fst (create_oncall_schedule now schedule cu db) = Raise e).
Proof.
  intros H.
  destruct (H 6 (Sample.shift Sample.alice 12 10) Sample.admin Sample.db0)
    as [e He].
  - vm_compute. discriminate.
  - vm_compute in He. discriminate.
Qed.

(** C4, amended.  [create_oncall_schedule] does not compare [end_date]
    with [start_date]: a request with [end_date <= start_date] is treated
    as any other.  It is stored when its user exists and none of the
    user's schedules overlaps it, and it is refused only for a missing
    user or for such an overlap. *)
Theorem create_end_before_start now schedule cu db :
  OnCallScheduleCreate.end_date schedule
    <= OnCallScheduleCreate.start_date schedule ->
  ((exists u, In u (users db)
              /\ User.id u = OnCallScheduleCreate.user_id schedule) ->
   (forall s, In s (oncall_schedules db) ->
      OnCallSchedule.user_id s = OnCallScheduleCreate.user_id schedule ->
      ~ (OnCallSchedule.start_date s < OnCallScheduleCreate.end_date schedule
         /\ OnCallSchedule.end_date s
            > OnCallScheduleCreate.start_date schedule)) ->
   create_oncall_schedule now schedule cu db
     = (Return (new_schedule now schedule cu (oncall_schedules_id_seq db)),
        {| users := users db;
           oncall_schedules :=
             oncall_schedules db
             ++ [new_schedule now schedule cu (oncall_schedules_id_seq db)];
           oncall_schedules_id_seq := oncall_schedules_id_seq db + 1 |}))
  /\ (forall e,
        fst (create_oncall_schedule now schedule cu db) = Raise e ->
        (forall u, In u (users db) ->
           User.id u <> OnCallScheduleCreate.user_id schedule)
        \/ (exists s, In s (oncall_schedules db)
              /\ OnCallSchedule.user_id s
                 = OnCallScheduleCreate.user_id schedule
              /\ OnCallSchedule.start_date s
                 < OnCallScheduleCreate.end_date schedule
              /\ OnCallSchedule.end_date s
                 > OnCallScheduleCreate.start_date schedule)).
Proof.
  intros _. split.
  - apply create_accepted.
  - apply create_raises.
Qed.

Lemma create_end_before_start_witness :
  OnCallScheduleCreate.end_date (Sample.shift Sample.alice 12 10)
    <= OnCallScheduleCreate.start_date (Sample.shift Sample.alice 12 10)
  /\ create_oncall_schedule 7 (Sample.shift Sample.alice 12 10) Sample.admin
                            Sample.db1
     = (Return (new_schedule 7 (Sample.shift Sample.alice 12 10)
                             Sample.admin 2),
        {| users := users Sample.db1;
           oncall_schedules :=
             oncall_schedules Sample.db1
             ++ [new_schedule 7 (Sample.shift Sample.alice 12 10)
                              Sample.admin 2];
           oncall_schedules_id_seq := 3 |}).
Proof.
  assert (H : OnCallScheduleCreate.end_date (Sample.shift Sample.alice 12 10)
              <= OnCallScheduleCreate.start_date
                   (Sample.shift Sample.alice 12 10))
    by (vm_compute; discriminate).
  split; [exact H |].
  apply (proj1 (create_end_before_start 7 (Sample.shift Sample.alice 12 10)
                  Sample.admin Sample.db1 H)).
  - exists Sample.alice. split; [vm_compute; auto | reflexivity].
  - intros s Hin Hu. vm_compute in Hin.
    destruct Hin as [E | []]. subst s. vm_compute. intros [Hlt _].
    discriminate.
Defined.

(** ** Who is on call *)

(** C3.  [get_current_oncall] returns a schedule exactly when some stored
    schedule has [start_date <= now <= end_date]; what it returns is such
    a stored schedule; when there is none it raises HTTP 404 "No one is
    currently on-call"; it never writes. *)
Theorem get_current_oncall_iff now cu db :
  ((exists r, fst (get_current_oncall now cu db) = Return r)
   <-> (exists S, In S (oncall_schedules db)
          /\ OnCallSchedule.start_date S <= now <= OnCallSchedule.end_date S))
  /\ (forall r, fst (get_current_oncall now cu db) = Return r ->
        In (CurrentOnCall.schedule r) (oncall_schedules db)
        /\ OnCallSchedule.start_date (CurrentOnCall.schedule r) <= now
           <= OnCallSchedule.end_date (CurrentOnCall.schedule r))
  /\ ((forall S, In S (oncall_schedules db) ->
         ~ OnCallSchedule.start_date S <= now <= OnCallSchedule.end_date S) ->
      fst (get_current_oncall now cu db)
        = Raise (HTTPException 404 "No one is currently on-call"))
  /\ snd (get_current_oncall now cu db) = db.
Proof.
  set (p := fun s => (OnCallSchedule.start_date s <=? now)
                     && (OnCallSchedule.end_date s >=? now)).
  assert (Hp : forall s, p s = true <->
            OnCallSchedule.start_date s <= now <= OnCallSchedule.end_date s).
  { intros s. unfold p. rewrite andb_true_iff, Z.leb_le, Z.geb_le. tauto. }
  assert (E : get_current_oncall now cu db =
    match find p (oncall_schedules db) with
    | None => (Raise (HTTPException 404 "No one is currently on-call"), db)
    | Some s =>
        (Return {| CurrentOnCall.user :=
                     find (fun u => User.id u =? OnCallSchedule.user_id s)
                          (users db);
                   CurrentOnCall.schedule := s |}, db)
    end).
  { unfold get_current_oncall, bind, query_first, ret, raise. fold p.
    now destruct (find p (oncall_schedules db)). }
  rewrite E. clear E.
  destruct (find p (oncall_schedules db)) as [s |] eqn:F; simpl.
  - apply find_some in F. destruct F as [Hin Hs]. apply Hp in Hs.
    repeat split.
    + intros _. now exists s.
    + intros _. eexists. reflexivity.
    + injection H as <-. exact Hin.
    + injection H as <-. simpl. tauto.
    + injection H as <-. simpl. tauto.
    + intros Hnone. now elim (Hnone s Hin).
  - repeat split.
    + intros [r Hr]. discriminate.
    + intros (S & Hin & HS). apply Hp in HS.
      rewrite (find_none _ _ F S Hin) in HS. discriminate.
    + discriminate.
    + discriminate.
    + discriminate.
Qed.

(** ** Who is on call today *)

(** On the last day of [datetime], midnight tomorrow does not exist and
    [get_today_oncall] raises. *)
Lemma get_today_oncall_last_day cu db :
  get_today_oncall datetime_max cu db = (Raise OverflowError, db).
Proof. reflexivity. Qed.

Lemma replace_midnight_bounds now :
  replace_midnight now <= now < replace_midnight now + MICROSECONDS_PER_DAY
  /\ replace_midnight now mod MICROSECONDS_PER_DAY = 0.
Proof.
  unfold replace_midnight.
  assert (Hd : 0 < MICROSECONDS_PER_DAY) by reflexivity.
  pose proof (Z.mod_pos_bound now _ Hd) as Hb.
  split; [lia |].
  rewrite Zminus_mod, Zmod_mod, Z.sub_diag. reflexivity.
Qed.

(** C5.  For [now] a datetime before the last day of the calendar,
    [get_today_oncall] returns, in storage order, exactly the stored
    schedules with [start_date < range_end] and [end_date > range_start],
    where [range_start] is midnight of the day of [now] and [range_end] is
    one day later; it does not write. *)
Theorem get_today_oncall_range now cu db :
  0 <= now < 3652058 * MICROSECONDS_PER_DAY ->
  exists range_start range_end l,
    get_today_oncall now cu db = (Return l, db)
    /\ range_start <= now < range_end
    /\ range_start mod MICROSECONDS_PER_DAY = 0
    /\ range_end = range_start + MICROSECONDS_PER_DAY
    /\ l = filter (fun s => (OnCallSchedule.start_date s <? range_end)
                            && (OnCallSchedule.end_date s >? range_start))
                  (oncall_schedules db)
    /\ forall S, In S l <->
         In S (oncall_schedules db)
         /\ OnCallSchedule.start_date S < range_end
         /\ OnCallSchedule.end_date S > range_start.
Proof.
  intros Hnow.
  destruct (replace_midnight_bounds now) as [Hb Hm].
  exists (replace_midnight now),
         (replace_midnight now + MICROSECONDS_PER_DAY).
  eexists. split.
  - unfold get_today_oncall, bind, datetime_add, timedelta_days.
    rewrite Z.mul_1_l.
    assert (Hlo : (replace_midnight now + MICROSECONDS_PER_DAY <? 0) = false).
    { apply Z.ltb_ge. unfold MICROSECONDS_PER_DAY in *. lia. }
    assert (Hhi : (datetime_max
                   <? replace_midnight now + MICROSECONDS_PER_DAY) = false).
    { apply Z.ltb_ge. unfold datetime_max, MICROSECONDS_PER_DAY in *. lia. }
    rewrite Hlo, Hhi. simpl. unfold query_all. reflexivity.
  - split; [exact Hb |]. split; [exact Hm |].
    split; [reflexivity |]. split; [reflexivity |].
    intros S. rewrite filter_In, andb_true_iff, Z.ltb_lt, Z.gtb_ltb, Z.ltb_lt.
    intuition lia.
Qed.

Lemma get_today_oncall_range_witness :
  exists range_start range_end l,
    get_today_oncall Sample.noon18 Sample.admin Sample.db2
      = (Return l, Sample.db2)
    /\ range_start <= Sample.noon18 < range_end
    /\ range_start mod MICROSECONDS_PER_DAY = 0
    /\ range_end = range_start + MICROSECONDS_PER_DAY
    /\ l = filter (fun s => (OnCallSchedule.start_date s <? range_end)
                            && (OnCallSchedule.end_date s >? range_start))
                  (oncall_schedules Sample.db2)
    /\ forall S, In S l <->
         In S (oncall_schedules Sample.db2)
         /\ OnCallSchedule.start_date S < range_end
         /\ OnCallSchedule.end_date S > range_start.
Proof.
  apply (get_today_oncall_range Sample.noon18 Sample.admin Sample.db2).
  vm_compute. split; [discriminate | reflexivity].
Defined.

(** ** Deleting a schedule *)

Lemma find_id_some schedule_id (l : list OnCallSchedule.t) :
  (exists s, In s l /\ OnCallSchedule.id s = schedule_id) ->
  exists s, find (fun s => OnCallSchedule.id s =? schedule_id) l = Some s.
Proof.
  intros (s & Hin & Hid).
  apply (find_is_some _ _ s Hin). now apply Z.eqb_eq.
Qed.

Lemma filter_other_ids schedule_id (l : list OnCallSchedule.t) :
  (forall s, In s l -> OnCallSchedule.id s <> schedule_id) ->
  filter (fun s => negb (OnCallSchedule.id s =? schedule_id)) l = l.
Proof.
  induction l as [| a l IH]; intros H; simpl; [reflexivity |].
  assert (Ha : (OnCallSchedule.id a =? schedule_id) = false)
    by (apply Z.eqb_neq, H; now left).
  rewrite Ha. simpl. f_equal. apply IH.
  intros s Hs. apply H. now right.
Qed.

(** With distinct keys, deleting by key takes one row out and keeps the
    others where they are. *)
Lemma filter_unique_id (l : list OnCallSchedule.t) target :
  NoDup (map OnCallSchedule.id l) ->
  In target l ->
  exists l1 l2,
    l = l1 ++ target :: l2
    /\ filter (fun s => negb (OnCallSchedule.id s
                               =? OnCallSchedule.id target)) l
       = l1 ++ l2.
Proof.
  intros Hnd Hin.
  destruct (in_split _ _ Hin) as (l1 & l2 & E).
  exists l1, l2. split; [exact E |].
  subst l. rewrite map_app in Hnd. simpl in Hnd.
  pose proof (NoDup_remove_2 _ _ _ Hnd) as Hnotin.
  rewrite filter_app. simpl. rewrite Z.eqb_refl. simpl.
  rewrite !filter_other_ids; [reflexivity | |];
    intros s Hs Hid; apply Hnotin, in_or_app;
    [right | left]; rewrite <- Hid; now apply in_map.
Qed.

(** C8.  [delete_oncall_schedule] returns its success message when a
    schedule with the key is stored, and afterwards no stored schedule has
    the key; when no stored schedule has the key it raises HTTP 404
    "Schedule not found" and leaves the database as it was. *)
Theorem delete_oncall_schedule_outcome schedule_id cu db :
  ((exists s, In s (oncall_schedules db)
              /\ OnCallSchedule.id s = schedule_id) ->
   exists db',
     delete_oncall_schedule schedule_id cu db
       = (Return "Schedule deleted successfully", db')
     /\ users db' = users db
     /\ forall s, In s (oncall_schedules db') ->
                  OnCallSchedule.id s <> schedule_id)
  /\ ((forall s, In s (oncall_schedules db) ->
                 OnCallSchedule.id s <> schedule_id) ->
      delete_oncall_schedule schedule_id cu db
        = (Raise (HTTPException 404 "Schedule not found"), db)).
Proof.
  split.
  - intros Hex. destruct (find_id_some _ _ Hex) as [s E].
    eexists. split; [exact (delete_found _ cu _ _ E) |].
    split; [reflexivity |]. simpl.
    intros s' Hs'. apply filter_In in Hs'. destruct Hs' as [_ Hs'].
    apply negb_true_iff in Hs'. now apply Z.eqb_neq.
  - intros Hnone. apply delete_missing, find_is_none.
    intros s Hs. apply Z.eqb_neq. now apply Hnone.
Qed.

(** C9.  A delete of the key of a stored schedule [target] succeeds; the
    schedules stored afterwards are exactly those stored before whose key
    is another, each the same row as before; [users] and the sequence are
    untouched; and under the primary key exactly the row [target] is gone,
    the others in their order. *)
Theorem delete_oncall_schedule_frame schedule_id cu db target :
  In target (oncall_schedules db) ->
  OnCallSchedule.id target = schedule_id ->
  exists db',
    delete_oncall_schedule schedule_id cu db
      = (Return "Schedule deleted successfully", db')
    /\ users db' = users db
    /\ oncall_schedules_id_seq db' = oncall_schedules_id_seq db
    /\ (forall s, In s (oncall_schedules db') <->
          In s (oncall_schedules db) /\ OnCallSchedule.id s <> schedule_id)
    /\ (primary_key db ->
        exists l1 l2,
          oncall_schedules db = l1 ++ target :: l2
          /\ oncall_schedules db' = l1 ++ l2
          /\ ~ In target (l1 ++ l2)).
Proof.
  intros Hin Hid.
  destruct (find_id_some schedule_id (oncall_schedules db)) as [s E];
    [now exists target |].
  eexists. split; [exact (delete_found _ cu _ _ E) |]. simpl.
  split; [reflexivity |]. split; [reflexivity |]. split.
  - intros s'. rewrite filter_In, negb_true_iff, Z.eqb_neq. tauto.
  - intros [Hnd _]. subst schedule_id.
    destruct (filter_unique_id _ _ Hnd Hin) as (l1 & l2 & E1 & E2).
    exists l1, l2. split; [exact E1 |]. split; [exact E2 |].
    rewrite <- E2. intros Hf. apply filter_In in Hf. destruct Hf as [_ Hf].
    rewrite Z.eqb_refl in Hf. discriminate.
Qed.

Lemma delete_oncall_schedule_frame_witness :
  exists db',
    delete_oncall_schedule 1 Sample.admin Sample.db2
      = (Return "Schedule deleted successfully", db')
    /\ users db' = users Sample.db2
    /\ oncall_schedules_id_seq db' = oncall_schedules_id_seq Sample.db2
    /\ (forall s, In s (oncall_schedules db') <->
          In s (oncall_schedules Sample.db2) /\ OnCallSchedule.id s <> 1)
    /\ (primary_key Sample.db2 ->
        exists l1 l2,
          oncall_schedules Sample.db2 = l1 ++ Sample.alice_row :: l2
          /\ oncall_schedules db' = l1 ++ l2
          /\ ~ In Sample.alice_row (l1 ++ l2)).
Proof.
  apply (delete_oncall_schedule_frame 1 Sample.admin Sample.db2
           Sample.alice_row).
  - vm_compute. auto.
  - reflexivity.
Defined.

(** ** The scenarios of the specification *)

(** Schedule A of user 1 over [Jan 1, Jan 8) is stored; schedule B of the
    same user over [Jan 5, Jan 10) is refused as overlapping. *)
Example scenario_overlap_rejected :
  fst (create_oncall_schedule 1 (Sample.shift Sample.admin 5 10) Sample.admin
         (run [Create 0 (Sample.shift Sample.admin 1 8) Sample.admin]
              Sample.db0))
  = Raise (HTTPException 400 "Schedule overlaps with existing schedule").
Proof. reflexivity. Qed.

(** Deleting the key 9999, which is not stored, is refused. *)
Example scenario_delete_missing :
  delete_oncall_schedule 9999 Sample.admin Sample.db2
  = (Raise (HTTPException 404 "Schedule not found"), Sample.db2).
Proof. reflexivity. Qed.

(** At noon of day 18 only Bob's schedule meets the day. *)
Example scenario_today :
  fst (get_today_oncall Sample.noon18 Sample.admin Sample.db2)
  = Return [Sample.bob_row].
Proof. reflexivity. Qed.

(** A schedule is still current at the very instant it ends. *)
Example scenario_current_at_end :
  fst (get_current_oncall (Sample.day 17) Sample.admin Sample.db1)
  = Return {| CurrentOnCall.user := Some Sample.alice;
              CurrentOnCall.schedule := Sample.alice_row |}.
Proof. reflexivity. Qed.

(** ** Listing the schedules *)

Lemma insert_start_date_desc_perm s rows :
  Permutation (s :: rows) (insert_start_date_desc s rows).
Proof.
  induction rows as [| x rows IH]; simpl; [apply Permutation_refl |].
  destruct (OnCallSchedule.start_date s <? OnCallSchedule.start_date x).
  - eapply perm_trans; [apply perm_swap |]. now apply perm_skip.
  - apply Permutation_refl.
Qed.

Lemma order_by_start_date_desc_perm rows :
  Permutation rows (order_by_start_date_desc rows).
Proof.
  induction rows as [| s rows IH]; simpl; [constructor |].
  eapply perm_trans; [apply perm_skip, IH |].
  apply insert_start_date_desc_perm.
Qed.

Lemma insert_start_date_desc_sorted s rows :
  StronglySorted
    (fun a b => OnCallSchedule.start_date a >= OnCallSchedule.start_date b)
    rows ->
  StronglySorted
    (fun a b => OnCallSchedule.start_date a >= OnCallSchedule.start_date b)
    (insert_start_date_desc s rows).
Proof.
  induction rows as [| x rows IH]; intros Hs; simpl.
  - repeat constructor.
  - apply StronglySorted_inv in Hs. destruct Hs as [Hrows Hx].
    destruct (OnCallSchedule.start_date s <? OnCallSchedule.start_date x)
      eqn:E.
    + apply Z.ltb_lt in E. constructor; [now apply IH |].
      eapply Permutation_Forall; [apply insert_start_date_desc_perm |].
      constructor; [lia | exact Hx].
    + apply Z.ltb_ge in E. constructor; [now constructor |].
      constructor; [lia |].
      eapply Forall_impl; [| exact Hx]. simpl. intros a Ha. lia.
Qed.

(** X1.  [list_oncall_schedules] returns every stored schedule once, the
    later [start_date] first, and does not write. *)
Theorem list_oncall_schedules_sorted cu db :
  exists l,
    list_oncall_schedules cu db = (Return l, db)
    /\ Permutation (oncall_schedules db) l
    /\ StronglySorted
         (fun a b => OnCallSchedule.start_date a
                     >= OnCallSchedule.start_date b) l.
Proof.
  eexists. split; [reflexivity |]. split.
  - apply order_by_start_date_desc_perm.
  - induction (oncall_schedules db) as [| s rows IH]; simpl;
      [constructor | now apply insert_start_date_desc_sorted].
Qed.

(** ** How create and delete compose *)

(** What a create that returned has done. *)
Lemma create_returned now schedule cu db row db1 :
  create_oncall_schedule now schedule cu db = (Return row, db1) ->
  row = new_schedule now schedule cu (oncall_schedules_id_seq db)
  /\ db1 = {| users := users db;
              oncall_schedules := oncall_schedules db ++ [row];
              oncall_schedules_id_seq := oncall_schedules_id_seq db + 1 |}
  /\ find (overlaps_request schedule) (oncall_schedules db) = None
  /\ exists u, In u (users db)
               /\ User.id u = OnCallScheduleCreate.user_id schedule
               /\ find (fun u => User.id u
                                 =? OnCallScheduleCreate.user_id schedule)
                       (users db) = Some u.
Proof.
  intros H.
  destruct (find (fun u => User.id u =? OnCallScheduleCreate.user_id schedule)
                 (users db)) as [u |] eqn:Eu.
  - destruct (find (overlaps_request schedule) (oncall_schedules db))
      as [s |] eqn:Es.
    + rewrite (create_overlapping _ _ _ _ _ _ Eu Es) in H. discriminate.
    + rewrite (create_stored _ _ _ _ _ Eu Es) in H.
      injection H as <- <-.
      split; [reflexivity |]. split; [reflexivity |].
      split; [reflexivity |].
      exists u. pose proof (find_some _ _ Eu) as [Hin Hid].
      apply Z.eqb_eq in Hid. auto.
  - rewrite (create_user_missing _ _ _ _ Eu) in H. discriminate.
Qed.

(** X2.  Under the primary key, deleting the schedule a create has just
    returned succeeds and gives back the schedule table and the users as
    they were before the create; only the sequence has moved on. *)
Theorem create_then_delete_restores now schedule cu cu' db row db1 :
  primary_key db ->
  create_oncall_schedule now schedule cu db = (Return row, db1) ->
  exists db2,
    delete_oncall_schedule (OnCallSchedule.id row) cu' db1
      = (Return "Schedule deleted successfully", db2)
    /\ oncall_schedules db2 = oncall_schedules db
    /\ users db2 = users db
    /\ oncall_schedules_id_seq db2 = oncall_schedules_id_seq db + 1.
Proof.
  intros [_ Hlt] Hc.
  destruct (create_returned _ _ _ _ _ _ Hc) as (Hrow & Hdb1 & _).
  destruct (find_id_some (OnCallSchedule.id row) (oncall_schedules db1))
    as [s E].
  { exists row. split; [| reflexivity].
    rewrite Hdb1. simpl. apply in_or_app. right. now left. }
  eexists. split; [exact (delete_found _ cu' _ _ E) |].
  rewrite Hdb1. simpl. split; [| split; reflexivity].
  rewrite filter_app. simpl. rewrite Z.eqb_refl. simpl.
  rewrite app_nil_r. apply filter_other_ids.
  intros x Hx. specialize (Hlt x Hx). rewrite Hrow. simpl. lia.
Qed.

Lemma create_then_delete_restores_witness :
  exists db2,
    delete_oncall_schedule (OnCallSchedule.id Sample.bob_row) Sample.alice
                           Sample.db2
      = (Return "Schedule deleted successfully", db2)
    /\ oncall_schedules db2 = oncall_schedules Sample.db1
    /\ users db2 = users Sample.db1
    /\ oncall_schedules_id_seq db2 = oncall_schedules_id_seq Sample.db1 + 1.
Proof.
  apply (create_then_delete_restores 6 (Sample.shift Sample.bob 14 21)
           Sample.admin Sample.alice Sample.db1 Sample.bob_row Sample.db2).
  - apply run_primary_key. reflexivity.
  - reflexivity.
Defined.

(** X3.  A second delete of the same key, whatever the first one did,
    raises HTTP 404 "Schedule not found" and changes nothing. *)
Theorem delete_oncall_schedule_twice schedule_id cu cu' db :
  delete_oncall_schedule schedule_id cu'
    (snd (delete_oncall_schedule schedule_id cu db))
  = (Raise (HTTPException 404 "Schedule not found"),
     snd (delete_oncall_schedule schedule_id cu db)).
Proof.
  apply delete_missing, find_is_none. intros s Hs. apply Z.eqb_neq.
  destruct (find (fun s => OnCallSchedule.id s =? schedule_id)
                 (oncall_schedules db)) as [x |] eqn:E.
  - rewrite (delete_found _ _ _ _ E) in Hs. simpl in Hs.
    apply filter_In in Hs. destruct Hs as [_ Hs].
    apply negb_true_iff in Hs. now apply Z.eqb_neq.
  - rewrite (delete_missing _ _ _ E) in Hs. simpl in Hs.
    pose proof (find_none _ _ E s Hs) as Hq. now apply Z.eqb_neq.
Qed.


(** ** Keys of schedules *)

Lemma same_id_same_row (rows : list OnCallSchedule.t) a b :
  NoDup (map OnCallSchedule.id rows) ->
  In a rows -> In b rows ->
  OnCallSchedule.id a = OnCallSchedule.id b ->
  a = b.
Proof.
  induction rows as [| x rows IH]; intros Hnd Ha Hb Hid; [contradiction |].
  simpl in Hnd. apply NoDup_cons_iff in Hnd. destruct Hnd as [Hfresh Hnd].
  destruct Ha as [Ha | Ha], Hb as [Hb | Hb]; subst.
  - reflexivity.
  - elim Hfresh. rewrite Hid. now apply in_map.
  - elim Hfresh. rewrite <- Hid. now apply in_map.
  - now apply IH.
Qed.

Lemma handle_later_than d0 r d : later_than d0 d -> later_than d0 (handle r d).
Proof.
  intros [Hseq Hrows]. destruct r as [now schedule cu | schedule_id cu]; simpl.
  - destruct (create_db now schedule cu d) as [E | (_ & _ & E)];
      rewrite E; [now split |].
    split; simpl; [lia |].
    intros s Hs. apply in_app_or in Hs.
    destruct Hs as [Hs | [Hs | []]]; [now apply Hrows |].
    subst s. simpl. right. exact Hseq.
  - destruct (delete_db schedule_id cu d) as [E | E];
      rewrite E; [now split |].
    split; simpl; [exact Hseq |].
    intros s Hs. apply filter_In in Hs. now apply Hrows.
Qed.

(** X4.  Keys are never given twice: in a run that starts with no
    schedule, a key names the same row for ever, also after the row was
    deleted and other rows were created. *)
Theorem schedule_id_never_reused db rs1 rs2 s s' :
  oncall_schedules db = [] ->
  In s (oncall_schedules (run rs1 db)) ->
  In s' (oncall_schedules (run (rs1 ++ rs2) db)) ->
  OnCallSchedule.id s = OnCallSchedule.id s' ->
  s = s'.
Proof.
  intros E Hs Hs' Hid.
  destruct (run_primary_key rs1 db E) as [Hnd Hlt].
  unfold run in Hs'. rewrite fold_left_app in Hs'.
  fold (run rs1 db) in Hs'. fold (run rs2 (run rs1 db)) in Hs'.
  assert (Hl : later_than (run rs1 db) (run rs2 (run rs1 db))).
  { apply (run_preserves (later_than (run rs1 db)));
      [apply handle_later_than |].
    split; [lia | auto]. }
  destruct (proj2 Hl s' Hs') as [Hold | Hnew].
  - now apply (same_id_same_row _ s s' Hnd).
  - specialize (Hlt s Hs). lia.
Qed.

Lemma schedule_id_never_reused_witness :
  In Sample.alice_row (oncall_schedules (run Sample.alice_requests Sample.db0))
  /\ Sample.alice_row = Sample.alice_row.
Proof.
  assert (H : In Sample.alice_row
                (oncall_schedules (run Sample.alice_requests Sample.db0)))
    by (vm_compute; auto).
  split; [exact H |].
  apply (schedule_id_never_reused Sample.db0 Sample.alice_requests
           [Delete 2 Sample.admin; Create 9 (Sample.shift Sample.bob 1 2)
                                          Sample.admin]
           Sample.alice_row Sample.alice_row eq_refl H).
  - vm_compute. auto.
  - reflexivity.
Defined.

(** ** Ties and hand-overs *)

Lemma find_first_match {A} (p : A -> bool) (before : list A) (x : A)
    (after : list A) :
  (forall y, In y before -> p y = false) ->
  p x = true ->
  find p (before ++ x :: after) = Some x.
Proof.
  intros Hb Hx. induction before as [| y before IH]; simpl.
  - now rewrite Hx.
  - rewrite (Hb y (or_introl eq_refl)). apply IH.
    intros z Hz. apply Hb. now right.
Qed.

Lemma is_current_true now (s : OnCallSchedule.t) :
  (OnCallSchedule.start_date s <=? now) && (OnCallSchedule.end_date s >=? now)
    = true
  <-> OnCallSchedule.start_date s <= now <= OnCallSchedule.end_date s.
Proof.
  rewrite andb_true_iff, Z.leb_le, Z.geb_le. tauto.
Qed.

Lemma get_current_oncall_first_match_aux now cu db before s after :
  oncall_schedules db = before ++ s :: after ->
  (forall x, In x before ->
     ~ OnCallSchedule.start_date x <= now <= OnCallSchedule.end_date x) ->
  OnCallSchedule.start_date s <= now <= OnCallSchedule.end_date s ->
  get_current_oncall now cu db
  = (Return {| CurrentOnCall.user :=
                 find (fun u => User.id u =? OnCallSchedule.user_id s)
                      (users db);
               CurrentOnCall.schedule := s |}, db).
Proof.
  intros E Hb Hs.
  unfold get_current_oncall, bind, query_first. rewrite E.
  rewrite find_first_match; [reflexivity | | now apply is_current_true].
  intros y Hy. apply not_true_iff_false. rewrite is_current_true.
  now apply Hb.
Qed.



(** X6.  In a run that starts with no schedule, two distinct schedules of
    one user contain the same instant [t] only when [t] is the very
    instant at which one of them ends and the other starts. *)
Theorem same_user_current_only_at_handover db rs S1 S2 t :
  oncall_schedules db = [] ->
  In S1 (oncall_schedules (run rs db)) ->
  In S2 (oncall_schedules (run rs db)) ->
  OnCallSchedule.user_id S1 = OnCallSchedule.user_id S2 ->
  S1 <> S2 ->
  OnCallSchedule.start_date S1 <= t <= OnCallSchedule.end_date S1 ->
  OnCallSchedule.start_date S2 <= t <= OnCallSchedule.end_date S2 ->
  (OnCallSchedule.end_date S1 = t /\ OnCallSchedule.start_date S2 = t)
  \/ (OnCallSchedule.end_date S2 = t /\ OnCallSchedule.start_date S1 = t).
Proof.
  intros E H1 H2 Hu Hne Ht1 Ht2.
  assert (Hno : no_overlap (oncall_schedules (run rs db))).
  { apply (run_preserves (fun d => no_overlap (oncall_schedules d)));
      [apply handle_no_overlap | rewrite E; apply no_overlap_nil]. }
  pose proof (Hno S1 S2 H1 H2 Hu Hne) as Hov.
  apply not_true_iff_false in Hov. rewrite overlap_true in Hov. lia.
Qed.

Lemma same_user_current_only_at_handover_witness :
  (OnCallSchedule.end_date Sample.alice_row = Sample.day 17
   /\ OnCallSchedule.start_date Sample.alice_next_row = Sample.day 17)
  \/ (OnCallSchedule.end_date Sample.alice_next_row = Sample.day 17
      /\ OnCallSchedule.start_date Sample.alice_row = Sample.day 17).
Proof.
  apply (same_user_current_only_at_handover Sample.db0 Sample.alice_requests
           Sample.alice_row Sample.alice_next_row (Sample.day 17) eq_refl).
  - vm_compute. auto.
  - vm_compute. auto.
  - reflexivity.
  - discriminate.
  - vm_compute. split; discriminate.
  - vm_compute. split; discriminate.
Defined.

(** X7.  A stored schedule that contains [now] is in the list of
    [get_today_oncall] for the same [now], except in one case: [now] is
    midnight and the schedule ends at that very instant. *)
Theorem current_listed_today now cu db S :
  0 <= now < 3652058 * MICROSECONDS_PER_DAY ->
  In S (oncall_schedules db) ->
  OnCallSchedule.start_date S <= now <= OnCallSchedule.end_date S ->
  exists l,
    get_today_oncall now cu db = (Return l, db)
    /\ (In S l <->
        ~ (OnCallSchedule.end_date S = now
           /\ now mod MICROSECONDS_PER_DAY = 0)).
Proof.
  intros Hnow Hin Hs.
  destruct (replace_midnight_bounds now) as [Hb _].
  eexists. split.
  - unfold get_today_oncall, bind, datetime_add, timedelta_days.
    rewrite Z.mul_1_l.
    assert (Hlo : (replace_midnight now + MICROSECONDS_PER_DAY <? 0) = false).
    { apply Z.ltb_ge. unfold MICROSECONDS_PER_DAY in *. lia. }
    assert (Hhi : (datetime_max
                   <? replace_midnight now + MICROSECONDS_PER_DAY) = false).
    { apply Z.ltb_ge. unfold datetime_max, MICROSECONDS_PER_DAY in *. lia. }
    rewrite Hlo, Hhi. simpl. unfold query_all. reflexivity.
  - rewrite filter_In, andb_true_iff, Z.ltb_lt, Z.gtb_ltb, Z.ltb_lt.
    unfold replace_midnight in *. split.
    + intros (_ & _ & Hgt) [He Hm]. lia.
    + intros Hne. split; [exact Hin |]. split; [lia |].
      destruct (Z.eq_dec (now mod MICROSECONDS_PER_DAY) 0) as [Hm | Hm];
        [| lia].
      destruct (Z.eq_dec (OnCallSchedule.end_date S) now) as [He | He];
        [now elim Hne | lia].
Qed.

Lemma current_listed_today_witness :
  exists l,
    get_today_oncall (Sample.day 17) Sample.bob Sample.db2
      = (Return l, Sample.db2)
    /\ (In Sample.alice_row l <->
        ~ (OnCallSchedule.end_date Sample.alice_row = Sample.day 17
           /\ Sample.day 17 mod MICROSECONDS_PER_DAY = 0)).
Proof.
  apply (current_listed_today (Sample.day 17) Sample.bob Sample.db2
           Sample.alice_row).
  - vm_compute. split; [discriminate | reflexivity].
  - vm_compute. auto.
  - vm_compute. split; discriminate.
Defined.

(** X8.  Once a create has returned, [get_current_oncall] finds someone
    at every instant of the new schedule, both ends included; and where
    no older schedule contains the instant, it returns the new row with
    the user the request named. *)
Theorem create_then_current now schedule cu cu' db row db1 t :
  create_oncall_schedule now schedule cu db = (Return row, db1) ->
  OnCallScheduleCreate.start_date schedule <= t
    <= OnCallScheduleCreate.end_date schedule ->
  (exists r, get_current_oncall t cu' db1 = (Return r, db1)
             /\ OnCallSchedule.start_date (CurrentOnCall.schedule r) <= t
                <= OnCallSchedule.end_date (CurrentOnCall.schedule r))
  /\ ((forall s, In s (oncall_schedules db) ->
         ~ OnCallSchedule.start_date s <= t <= OnCallSchedule.end_date s) ->
      exists u,
        In u (users db)
        /\ User.id u = OnCallScheduleCreate.user_id schedule
        /\ get_current_oncall t cu' db1
           = (Return {| CurrentOnCall.user := Some u;
                        CurrentOnCall.schedule := row |}, db1)).
Proof.
  intros Hc Ht.
  destruct (create_returned _ _ _ _ _ _ Hc)
    as (Hrow & Hdb1 & _ & u & Hu_in & Hu_id & Eu).
  assert (Hrow_t : OnCallSchedule.start_date row <= t
                   <= OnCallSchedule.end_date row)
    by (rewrite Hrow; exact Ht).
  split.
  - destruct (find (fun s => (OnCallSchedule.start_date s <=? t)
                             && (OnCallSchedule.end_date s >=? t))
                   (oncall_schedules db1)) as [s |] eqn:F.
    + eexists. split.
      * unfold get_current_oncall, bind, query_first. rewrite F. reflexivity.
      * simpl. apply find_some in F. now apply is_current_true.
    + exfalso.
      assert (Hin : In row (oncall_schedules db1))
        by (rewrite Hdb1; simpl; apply in_or_app; right; now left).
      pose proof (find_none _ _ F row Hin) as Hq. simpl in Hq.
      apply is_current_true in Hrow_t. congruence.
  - intros Hnone. exists u. split; [exact Hu_in |]. split; [exact Hu_id |].
    rewrite (get_current_oncall_first_match_aux t cu' db1
               (oncall_schedules db) row []).
    + subst db1 row. simpl. now rewrite Eu.
    + subst db1. reflexivity.
    + exact Hnone.
    + exact Hrow_t.
Qed.

Lemma create_then_current_witness :
  (exists r, get_current_oncall (Sample.day 18) Sample.alice Sample.db2
             = (Return r, Sample.db2)
             /\ OnCallSchedule.start_date (CurrentOnCall.schedule r)
                <= Sample.day 18
                <= OnCallSchedule.end_date (CurrentOnCall.schedule r))
  /\ ((forall s, In s (oncall_schedules Sample.db1) ->
         ~ OnCallSchedule.start_date s <= Sample.day 18
           <= OnCallSchedule.end_date s) ->
      exists u,
        In u (users Sample.db1)
        /\ User.id u
           = OnCallScheduleCreate.user_id (Sample.shift Sample.bob 14 21)
        /\ get_current_oncall (Sample.day 18) Sample.alice Sample.db2
           = (Return {| CurrentOnCall.user := Some u;
                        CurrentOnCall.schedule := Sample.bob_row |},
              Sample.db2)).
Proof.
  apply (create_then_current 6 (Sample.shift Sample.bob 14 21) Sample.admin
           Sample.alice Sample.db1 Sample.bob_row Sample.db2 (Sample.day 18)).
  - reflexivity.
  - vm_compute. split; discriminate.
Defined.

(** X10.  In a database that satisfies the foreign key of
    [oncall_schedules.user_id], whenever a stored schedule contains [now],
    [get_current_oncall] returns a schedule together with the row of
    [users] it belongs to: the field [user] of the answer is never
    missing. *)
Theorem get_current_oncall_user_present now cu db S :
  foreign_key db ->
  In S (oncall_schedules db) ->
  OnCallSchedule.start_date S <= now <= OnCallSchedule.end_date S ->
  exists r u,
    get_current_oncall now cu db = (Return r, db)
    /\ CurrentOnCall.user r = Some u
    /\ In u (users db)
    /\ User.id u = OnCallSchedule.user_id (CurrentOnCall.schedule r)
    /\ In (CurrentOnCall.schedule r) (oncall_schedules db).
Proof.
  intros Hfk Hin Hs.
  destruct (find_is_some
              (fun s => (OnCallSchedule.start_date s <=? now)
                        && (OnCallSchedule.end_date s >=? now))
              _ S Hin) as [s F]; [now apply is_current_true |].
  pose proof (find_some _ _ F) as [Hs_in _].
  destruct (find_user_some (OnCallSchedule.user_id s) (users db) (Hfk s Hs_in))
    as [u Eu].
  pose proof (find_some _ _ Eu) as [Hu_in Hu_id]. apply Z.eqb_eq in Hu_id.
  eexists. exists u. split.
  - unfold get_current_oncall, bind, query_first, ret. rewrite F, Eu.
    reflexivity.
  - simpl. auto.
Qed.

Lemma get_current_oncall_user_present_witness :
  exists r u,
    get_current_oncall Sample.noon18 Sample.alice Sample.db2
      = (Return r, Sample.db2)
    /\ CurrentOnCall.user r = Some u
    /\ In u (users Sample.db2)
    /\ User.id u = OnCallSchedule.user_id (CurrentOnCall.schedule r)
    /\ In (CurrentOnCall.schedule r) (oncall_schedules Sample.db2).
Proof.
  apply (get_current_oncall_user_present Sample.noon18 Sample.alice Sample.db2
           Sample.bob_row).
  - apply run_foreign_key. reflexivity.
  - vm_compute. auto.
  - vm_compute. split; discriminate.
Defined.

(** ** Registering users *)

Lemma violates_users_none row (us : list User.t) :
  existsb (violates_users row) us = false <->
  forall u, In u us ->
    User.id u <> User.id row
    /\ User.email u <> User.email row
    /\ User.username u <> User.username row.
Proof.
  split.
  - intros H u Hu.
    assert (Hv : violates_users row u = false).
    { destruct (violates_users row u) eqn:E; [| reflexivity].
      assert (Hex : existsb (violates_users row) us = true)
        by (apply existsb_exists; now exists u).
      congruence. }
    unfold violates_users in Hv.
    apply orb_false_iff in Hv. destruct Hv as [Hv Hn].
    apply orb_false_iff in Hv. destruct Hv as [Hi He].
    apply Z.eqb_neq in Hi. apply String.eqb_neq in He, Hn. auto.
  - intros H. apply not_true_iff_false. intros Hex.
    apply existsb_exists in Hex. destruct Hex as (u & Hu & Hv).
    destruct (H u Hu) as (Hi & He & Hn).
    apply Z.eqb_neq in Hi. apply String.eqb_neq in He, Hn.
    unfold violates_users in Hv. rewrite Hi, He, Hn in Hv. discriminate.
Qed.

Lemma find_username_none name (us : list User.t) :
  (forall u, In u us -> User.username u <> name) ->
  find (fun u => String.eqb (User.username u) name) us = None.
Proof.
  intros H. apply find_is_none. intros u Hu.
  apply String.eqb_neq. now apply H.
Qed.

Lemma find_email_none mail (us : list User.t) :
  (forall u, In u us -> User.email u <> mail) ->
  find (fun u => String.eqb (User.email u) mail) us = None.
Proof.
  intros H. apply find_is_none. intros u Hu.
  apply String.eqb_neq. now apply H.
Qed.

(** The row [create_user] hands to the session. *)
Lemma create_user_checked `{CryptContext} new_id now salt user cu db :
  find (fun u => String.eqb (User.username u) (UserCreate.username user))
       (users db) = None ->
  find (fun u => String.eqb (User.email u) (UserCreate.email user))
       (users db) = None ->
  create_user new_id now salt user cu db
  = add_user_commit
      {| User.id := new_id;
         User.email := UserCreate.email user;
         User.username := UserCreate.username user;
         User.hashed_password :=
           get_password_hash salt (UserCreate.password user);
         User.full_name := UserCreate.full_name user;
         User.is_admin := UserCreate.is_admin user;
         User.is_active := true;
         User.created_at := now |} db.
Proof.
  intros En Ee. unfold create_user, tbind, session, query_first.
  rewrite En. simpl. now rewrite Ee.
Qed.

(** X11.  [create_user] refuses a taken username with HTTP 400 "Username
    already registered", whether or not the email is taken too, and a
    taken email under a free username with HTTP 400 "Email already
    registered"; neither writes. *)
Theorem create_user_duplicate `{CryptContext} new_id now salt user cu db :
  ((exists u, In u (users db)
              /\ User.username u = UserCreate.username user) ->
   create_user new_id now salt user cu db
   = Some (Raise (HTTPException 400 "Username already registered"), db))
  /\ ((forall u, In u (users db) ->
         User.username u <> UserCreate.username user) ->
      (exists u, In u (users db) /\ User.email u = UserCreate.email user) ->
      create_user new_id now salt user cu db
      = Some (Raise (HTTPException 400 "Email already registered"), db)).
Proof.
  split.
  - intros (u & Hu & Hn).
    destruct (find_is_some
                (fun u => String.eqb (User.username u)
                                     (UserCreate.username user))
                _ u Hu) as [x Ex]; [now apply String.eqb_eq |].
    unfold create_user, tbind, session, query_first. now rewrite Ex.
  - intros Hfree (u & Hu & He).
    destruct (find_is_some
                (fun u => String.eqb (User.email u) (UserCreate.email user))
                _ u Hu) as [x Ex]; [now apply String.eqb_eq |].
    unfold create_user, tbind, session, query_first.
    rewrite (find_username_none _ _ Hfree). simpl. now rewrite Ex.
Qed.

(** X12.  The commit of [create_user] is refused by the database exactly
    when username and email are free and the key is taken: the unique
    constraints on [username] and [email] are never what fails. *)
Theorem create_user_integrity_error `{CryptContext} new_id now salt user cu
    db :
  create_user new_id now salt user cu db = None
  <-> (forall u, In u (users db) ->
         User.username u <> UserCreate.username user)
      /\ (forall u, In u (users db) -> User.email u <> UserCreate.email user)
      /\ (exists u, In u (users db) /\ User.id u = new_id).
Proof.
  destruct (find (fun u => String.eqb (User.username u)
                                      (UserCreate.username user))
                 (users db)) as [x |] eqn:En.
  { pose proof (find_some _ _ En) as [Hx Hxn]. apply String.eqb_eq in Hxn.
    split.
    - unfold create_user, tbind, session, query_first. rewrite En.
      discriminate.
    - intros (Hfree & _). now elim (Hfree x Hx). }
  destruct (find (fun u => String.eqb (User.email u) (UserCreate.email user))
                 (users db)) as [y |] eqn:Ee.
  { pose proof (find_some _ _ Ee) as [Hy Hye]. apply String.eqb_eq in Hye.
    split.
    - unfold create_user, tbind, session, query_first. rewrite En. simpl.
      rewrite Ee. discriminate.
    - intros (_ & Hfree & _). now elim (Hfree y Hy). }
  rewrite (create_user_checked _ _ _ _ _ _ En Ee).
  assert (Hn : forall u, In u (users db) ->
                 User.username u <> UserCreate.username user).
  { intros u Hu. apply String.eqb_neq. exact (find_none _ _ En u Hu). }
  assert (Hm : forall u, In u (users db) ->
                 User.email u <> UserCreate.email user).
  { intros u Hu. apply String.eqb_neq. exact (find_none _ _ Ee u Hu). }
  unfold add_user_commit.
  match goal with |- context [existsb ?p ?l] =>
    destruct (existsb p l) eqn:Ex end.
  - split; [intros _ | reflexivity].
    split; [exact Hn |]. split; [exact Hm |].
    apply existsb_exists in Ex. destruct Ex as (u & Hu & Hv).
    exists u. split; [exact Hu |].
    unfold violates_users in Hv. simpl in Hv.
    specialize (Hn u Hu). specialize (Hm u Hu).
    apply String.eqb_neq in Hn, Hm. rewrite Hn, Hm in Hv.
    rewrite !orb_false_r in Hv. now apply Z.eqb_eq.
  - split; [discriminate |]. intros (_ & _ & u & Hu & Hid).
    apply violates_users_none with (u := u) in Ex; [| exact Hu].
    simpl in Ex. tauto.
Qed.

Lemma NoDup_snoc {A} (l : list A) (a : A) :
  NoDup l -> ~ In a l -> NoDup (l ++ [a]).
Proof.
  intros Hl Ha. apply NoDup_app; [exact Hl | repeat constructor; intros [] |].
  intros x Hx [E | []]. now subst.
Qed.

(** X13.  Under a free key, username and email, [create_user] returns
    the new row and appends it to [users]: the row has the key, username
    and email of the request, the hash of its password in place of the
    password, and is active; the rows already stored and the schedules
    stay; keys, usernames and emails stay pairwise distinct. *)
Theorem create_user_registers `{CryptContext} new_id now salt user cu db :
  users_unique db ->
  (forall u, In u (users db) ->
     User.id u <> new_id
     /\ User.email u <> UserCreate.email user
     /\ User.username u <> UserCreate.username user) ->
  exists row db',
    create_user new_id now salt user cu db = Some (Return row, db')
    /\ users db' = users db ++ [row]
    /\ oncall_schedules db' = oncall_schedules db
    /\ oncall_schedules_id_seq db' = oncall_schedules_id_seq db
    /\ users_unique db'
    /\ User.id row = new_id
    /\ User.username row = UserCreate.username user
    /\ User.email row = UserCreate.email user
    /\ User.hashed_password row
       = get_password_hash salt (UserCreate.password user)
    /\ User.is_admin row = UserCreate.is_admin user
    /\ User.is_active row = true.
Proof.
  intros (Hid & Hname & Hmail) Hfree.
  rewrite create_user_checked.
  2: { apply find_username_none. intros u Hu. now apply Hfree. }
  2: { apply find_email_none. intros u Hu. now apply Hfree. }
  unfold add_user_commit.
  rewrite (proj2 (violates_users_none _ _)); [| exact Hfree].
  eexists. eexists. split; [reflexivity |]. simpl.
  repeat (split; [reflexivity |]). split; [| repeat split; reflexivity].
  unfold users_unique. simpl. rewrite !map_app. simpl.
  repeat split; apply NoDup_snoc; try assumption;
    rewrite in_map_iff; intros (u & Hu & Hin);
    destruct (Hfree u Hin) as (H1 & H2 & H3); congruence.
Qed.

Lemma create_user_registers_witness :
  exists row db',
    @create_user Sample.plain_context 4 8 "salt:" Sample.carol_request
                 Sample.admin Sample.db2 = Some (Return row, db')
    /\ users db' = users Sample.db2 ++ [row]
    /\ oncall_schedules db' = oncall_schedules Sample.db2
    /\ oncall_schedules_id_seq db' = oncall_schedules_id_seq Sample.db2
    /\ users_unique db'
    /\ User.id row = 4
    /\ User.username row = UserCreate.username Sample.carol_request
    /\ User.email row = UserCreate.email Sample.carol_request
    /\ User.hashed_password row
       = @get_password_hash Sample.plain_context "salt:"
           (UserCreate.password Sample.carol_request)
    /\ User.is_admin row = UserCreate.is_admin Sample.carol_request
    /\ User.is_active row = true.
Proof.
  apply (@create_user_registers Sample.plain_context 4 8 "salt:"
           Sample.carol_request Sample.admin Sample.db2).
  - unfold users_unique. vm_compute.
    repeat split; repeat constructor; simpl; intuition discriminate.
  - intros u Hu. vm_compute in Hu.
    destruct Hu as [E | [E | [E | []]]]; subst u;
      repeat split; discriminate.
Defined.

(** What a [create_user] that returned has done. *)
Lemma create_user_returned `{CryptContext} new_id now salt user cu db row
    db' :
  create_user new_id now salt user cu db = Some (Return row, db') ->
  find (fun u => String.eqb (User.username u) (UserCreate.username user))
       (users db) = None
  /\ users db' = users db ++ [row]
  /\ User.username row = UserCreate.username user
  /\ User.hashed_password row
     = get_password_hash salt (UserCreate.password user)
  /\ User.is_active row = true.
Proof.
  intros Hc.
  destruct (find (fun u => String.eqb (User.username u)
                                      (UserCreate.username user))
                 (users db)) as [x |] eqn:En.
  { unfold create_user, tbind, session, query_first in Hc.
    rewrite En in Hc. discriminate. }
  destruct (find (fun u => String.eqb (User.email u) (UserCreate.email user))
                 (users db)) as [y |] eqn:Ee.
  { unfold create_user, tbind, session, query_first in Hc.
    rewrite En in Hc. simpl in Hc. rewrite Ee in Hc. discriminate. }
  rewrite (create_user_checked _ _ _ _ _ _ En Ee) in Hc.
  unfold add_user_commit in Hc.
  match type of Hc with context [existsb ?p ?l] =>
    destruct (existsb p l) end; [discriminate |].
  injection Hc as <- <-. simpl. auto.
Qed.

(** X14.  A user that [create_user] has returned is at once found under
    its username, listed by [list_users], and authenticated by a password
    exactly when the context verifies that password against the hash of
    the one given at registration. *)
Theorem create_user_then_lookup `{CryptContext} new_id now salt user cu cu'
    db row db' password :
  create_user new_id now salt user cu db = Some (Return row, db') ->
  get_user_by_username (UserCreate.username user) db' = (Return (Some row), db')
  /\ (exists l, list_users cu' db' = (Return l, db') /\ In row l)
  /\ authenticate_user (UserCreate.username user) password db'
     = (Return (if verify_password password
                     (get_password_hash salt (UserCreate.password user))
                then Some row else None), db').
Proof.
  intros Hc.
  destruct (create_user_returned _ _ _ _ _ _ _ _ Hc)
    as (En & Hus & Hname & Hhash & Hact).
  assert (Hget : get_user_by_username (UserCreate.username user) db'
                 = (Return (Some row), db')).
  { unfold get_user_by_username, query_first. rewrite Hus.
    rewrite find_first_match; [reflexivity | |].
    - intros y Hy. exact (find_none _ _ En y Hy).
    - rewrite Hname. apply String.eqb_refl. }
  split; [exact Hget |]. split.
  - eexists. split; [reflexivity |].
    apply filter_In. split.
    + rewrite Hus. apply in_or_app. right. now left.
    + now rewrite Hact.
  - unfold authenticate_user, bind. rewrite Hget. rewrite Hhash.
    now destruct (verify_password password
                    (get_password_hash salt (UserCreate.password user))).
Qed.

Lemma create_user_then_lookup_witness :
  get_user_by_username (UserCreate.username Sample.carol_request) Sample.db3
    = (Return (Some Sample.carol), Sample.db3)
  /\ (exists l, list_users Sample.bob Sample.db3 = (Return l, Sample.db3)
                /\ In Sample.carol l)
  /\ @authenticate_user Sample.plain_context
       (UserCreate.username Sample.carol_request) "s3cret" Sample.db3
     = (Return (if @verify_password Sample.plain_context "s3cret"
                     (@get_password_hash Sample.plain_context "salt:"
                        (UserCreate.password Sample.carol_request))
                then Some Sample.carol else None), Sample.db3).
Proof.
  apply (@create_user_then_lookup Sample.plain_context 4 8 "salt:"
           Sample.carol_request Sample.admin Sample.bob Sample.db2
           Sample.carol Sample.db3 "s3cret").
  reflexivity.
Defined.

(** ** Start-up *)

Lemma startup_admin_present `{CryptContext} new_id now salt db :
  (exists u, In u (users db) /\ User.username u = "admin") ->
  startup new_id now salt db = Some (Return tt, db).
Proof.
  intros (u & Hu & Hn).
  destruct (find_is_some (fun u => String.eqb (User.username u) "admin")
              _ u Hu) as [x Ex]; [now apply String.eqb_eq |].
  unfold startup, tbind, session, query_first. now rewrite Ex.
Qed.

(** X15.  [startup] leaves the database alone when a user named "admin"
    is stored, whatever that user's rights and password; otherwise it
    appends the default administrator, unless the key or the address
    "admin@oncall.devops" is taken, in which case the commit is refused
    and [startup] fails. *)
Theorem startup_outcome `{CryptContext} new_id now salt db :
  ((exists u, In u (users db) /\ User.username u = "admin") ->
   startup new_id now salt db = Some (Return tt, db))
  /\ ((forall u, In u (users db) -> User.username u <> "admin") ->
      (forall u, In u (users db) ->
         User.id u <> new_id /\ User.email u <> "admin@oncall.devops") ->
      startup new_id now salt db
      = Some (Return tt,
              {| users := users db ++ [default_admin new_id now salt];
                 oncall_schedules := oncall_schedules db;
                 oncall_schedules_id_seq := oncall_schedules_id_seq db |}))
  /\ ((forall u, In u (users db) -> User.username u <> "admin") ->
      (exists u, In u (users db)
                 /\ (User.id u = new_id
                     \/ User.email u = "admin@oncall.devops")) ->
      startup new_id now salt db = None).
Proof.
  split; [| split].
  - apply startup_admin_present.
  - intros Hfree Hok.
    unfold startup, tbind, session, query_first.
    rewrite (find_username_none _ _ Hfree). simpl.
    unfold add_user_commit.
    rewrite (proj2 (violates_users_none _ _)); [reflexivity |].
    intros u Hu. simpl. destruct (Hok u Hu). auto.
  - intros Hfree (u & Hu & Hbad).
    unfold startup, tbind, session, query_first.
    rewrite (find_username_none _ _ Hfree). simpl.
    unfold add_user_commit.
    match goal with |- context [existsb ?p ?l] =>
      destruct (existsb p l) eqn:Ex end; [reflexivity |].
    apply violates_users_none with (u := u) in Ex; [| exact Hu].
    simpl in Ex. tauto.
Qed.

(** X16.  [startup] is idempotent: after a start-up that went through, a
    further start-up, with whatever key, clock and salt, changes
    nothing. *)
Theorem startup_idempotent `{CryptContext} new_id now salt new_id' now'
    salt' db db' :
  startup new_id now salt db = Some (Return tt, db') ->
  startup new_id' now' salt' db' = Some (Return tt, db').
Proof.
  intros Hs.
  apply startup_admin_present.
  destruct (find (fun u => String.eqb (User.username u) "admin") (users db))
    as [x |] eqn:Ex.
  - unfold startup, tbind, session, query_first in Hs. rewrite Ex in Hs.
    injection Hs as <-. apply find_some in Ex.
    exists x. split; [tauto |]. now apply String.eqb_eq.
  - unfold startup, tbind, session, query_first in Hs. rewrite Ex in Hs.
    simpl in Hs. unfold add_user_commit in Hs.
    match type of Hs with context [existsb ?p ?l] =>
      destruct (existsb p l) end; [discriminate |].
    injection Hs as <-. simpl.
    exists (default_admin new_id now salt).
    split; [apply in_or_app; right; now left | reflexivity].
Qed.

Lemma startup_idempotent_witness :
  @startup Sample.plain_context 2 9 "pepper"
    {| users := [@default_admin Sample.plain_context 1 0 "salt:"];
       oncall_schedules := [];
       oncall_schedules_id_seq := 1 |}
  = Some (Return tt,
          {| users := [@default_admin Sample.plain_context 1 0 "salt:"];
             oncall_schedules := [];
             oncall_schedules_id_seq := 1 |}).
Proof.
  apply (@startup_idempotent Sample.plain_context 1 0 "salt:" 2 9 "pepper"
           Sample.fresh_db).
  reflexivity.
Defined.

(** ** Signing in *)

Lemma get_current_user_db `{Jose} clock token db :
  snd (get_current_user clock token db) = db.
Proof.
  unfold get_current_user, bind, get_user_by_username, query_first, raise, ret.
  destruct (jwt_decode token clock) as [claims |]; [| reflexivity].
  destruct (Claims.sub claims) as [name |]; [| reflexivity].
  now destruct (find (fun u => String.eqb (User.username u) name) (users db)).
Qed.

(** X17.  [get_current_user] never writes, and it ends in one of two
    ways: it returns a stored user, the first whose username is the
    subject of the decoded token, or it raises HTTP 401 "Could not
    validate credentials", the same for a token that does not decode, a
    token without subject and a subject that is no stored username. *)
Theorem get_current_user_outcome `{Jose} clock token db :
  get_current_user clock token db = (Raise credentials_exception, db)
  \/ exists u claims,
       jwt_decode token clock = Some claims
       /\ Claims.sub claims = Some (User.username u)
       /\ In u (users db)
       /\ find (fun x => String.eqb (User.username x) (User.username u))
               (users db) = Some u
       /\ get_current_user clock token db = (Return u, db).
Proof.
  unfold get_current_user, bind, get_user_by_username, query_first, raise, ret.
  destruct (jwt_decode token clock) as [claims |]; [| now left].
  destruct (Claims.sub claims) as [name |] eqn:Es; [| now left].
  destruct (find (fun u => String.eqb (User.username u) name) (users db))
    as [u |] eqn:Eu; [| now left].
  right. exists u, claims.
  pose proof (find_some _ _ Eu) as [Hu Hn]. apply String.eqb_eq in Hn.
  rewrite Hn. repeat split; auto.
Qed.

(** X18.  The endpoints that depend on [get_current_admin_user] hand a
    failure of [get_current_user] on, and answer a user who is no
    administrator with HTTP 403 "Not enough permissions"; in both cases
    the handler does not run and nothing is written.  For an
    administrator they are the handler itself. *)
Theorem admin_only_endpoints `{CryptContext} `{Jose} clock token now
    schedule schedule_id new_id salt user db :
  (forall e, fst (get_current_user clock token db) = Raise e ->
     post_oncall clock token now schedule db = (Raise e, db)
     /\ delete_oncall clock token schedule_id db = (Raise e, db)
     /\ post_users clock token new_id now salt user db = Some (Raise e, db))
  /\ (forall u, fst (get_current_user clock token db) = Return u ->
        User.is_admin u = false ->
        post_oncall clock token now schedule db
          = (Raise (HTTPException 403 "Not enough permissions"), db)
        /\ delete_oncall clock token schedule_id db
           = (Raise (HTTPException 403 "Not enough permissions"), db)
        /\ post_users clock token new_id now salt user db
           = Some (Raise (HTTPException 403 "Not enough permissions"), db))
  /\ (forall u, fst (get_current_user clock token db) = Return u ->
        User.is_admin u = true ->
        post_oncall clock token now schedule db
          = create_oncall_schedule now schedule u db
        /\ delete_oncall clock token schedule_id db
           = delete_oncall_schedule schedule_id u db
        /\ post_users clock token new_id now salt user db
           = create_user new_id now salt user u db).
Proof.
  pose proof (get_current_user_db clock token db) as Hdb.
  unfold post_oncall, delete_oncall, post_users, depends_current_admin_user,
    tbind, session, bind, get_current_admin_user.
  destruct (get_current_user clock token db) as [[u | e] db'] eqn:E;
    simpl in Hdb; subst db'; simpl.
  - split; [discriminate |]. split.
    + intros u' Hu' Ha. injection Hu' as <-. rewrite Ha. simpl. auto.
    + intros u' Hu' Ha. injection Hu' as <-. rewrite Ha. simpl. auto.
  - split; [| split; discriminate].
    intros e' He'. injection He' as <-. auto.
Qed.



(** X20.  When [authenticate_user] accepts the credentials for a row,
    [login] returns a bearer token as long as the expiry, one day after
    [now], is a datetime; and as long as the library decodes at [clock]
    the tokens it encoded with a later expiry, [get_current_user]
    resolves that token to the very row that signed in. *)
Theorem login_then_current_user `{CryptContext} `{Jose} now clock username
    password db u :
  authenticate_user username password db = (Return (Some u), db) ->
  0 <= now ->
  now + timedelta_minutes ACCESS_TOKEN_EXPIRE_MINUTES <= datetime_max ->
  clock <= now + timedelta_minutes ACCESS_TOKEN_EXPIRE_MINUTES ->
  (forall subject expire, clock <= expire ->
     exists claims,
       jwt_decode (jwt_encode {| Claims.sub := Some subject;
                                 Claims.exp := Some expire |}) clock
         = Some claims
       /\ Claims.sub claims = Some subject) ->
  exists token,
    login now username password db = (Return token, db)
    /\ Token.token_type token = "bearer"
    /\ Token.access_token token
       = jwt_encode
           {| Claims.sub := Some username;
              Claims.exp :=
                Some (now + timedelta_minutes ACCESS_TOKEN_EXPIRE_MINUTES) |}
    /\ get_current_user clock (Token.access_token token) db = (Return u, db).
Proof.
  intros Hauth Hnow Hmax Hclock Hjose.
  assert (Hfind : find (fun x => String.eqb (User.username x) username)
                       (users db) = Some u).
  { unfold authenticate_user, bind, get_user_by_username, query_first, ret
      in Hauth.
    destruct (find (fun x => String.eqb (User.username x) username)
                   (users db)) as [x |]; [| discriminate].
    destruct (negb (verify_password password (User.hashed_password x)));
      [discriminate |].
    now injection Hauth as ->. }
  assert (Hname : User.username u = username).
  { apply find_some in Hfind. now apply String.eqb_eq. }
  assert (Hlo : (now + timedelta_minutes ACCESS_TOKEN_EXPIRE_MINUTES <? 0)
                = false).
  { apply Z.ltb_ge. unfold timedelta_minutes, ACCESS_TOKEN_EXPIRE_MINUTES in *.
    lia. }
  assert (Hhi : (datetime_max
                 <? now + timedelta_minutes ACCESS_TOKEN_EXPIRE_MINUTES)
                = false)
    by (apply Z.ltb_ge; exact Hmax).
  exists {| Token.access_token :=
              jwt_encode
                {| Claims.sub := Some username;
                   Claims.exp :=
                     Some (now
                           + timedelta_minutes ACCESS_TOKEN_EXPIRE_MINUTES) |};
            Token.token_type := "bearer" |}.
  split.
  - unfold login, bind. rewrite Hauth.
    unfold create_access_token, bind, datetime_add. cbv beta iota.
    assert (Hnz : (timedelta_minutes ACCESS_TOKEN_EXPIRE_MINUTES =? 0)
                  = false) by reflexivity.
    rewrite Hnz, Hlo, Hhi. cbn [Claims.sub]. rewrite Hname. reflexivity.
  - cbn [Token.access_token Token.token_type].
    split; [reflexivity |]. split; [reflexivity |].
    destruct (Hjose username
                (now + timedelta_minutes ACCESS_TOKEN_EXPIRE_MINUTES) Hclock)
      as (claims & Hdec & Hsub).
    unfold get_current_user, bind, get_user_by_username, query_first, ret.
    now rewrite Hdec, Hsub, Hfind.
Qed.

Lemma login_then_current_user_witness :
  exists token,
    @login Sample.plain_context Sample.plain_jose 9 "carol" "s3cret"
           Sample.db3 = (Return token, Sample.db3)
    /\ Token.token_type token = "bearer"
    /\ Token.access_token token
       = @jwt_encode Sample.plain_jose
           {| Claims.sub := Some "carol";
              Claims.exp :=
                Some (9 + timedelta_minutes ACCESS_TOKEN_EXPIRE_MINUTES) |}
    /\ @get_current_user Sample.plain_jose 10 (Token.access_token token)
         Sample.db3 = (Return Sample.carol, Sample.db3).
Proof.
  apply (@login_then_current_user Sample.plain_context Sample.plain_jose
           9 10 "carol" "s3cret" Sample.db3 Sample.carol).
  - reflexivity.
  - discriminate.
  - vm_compute. discriminate.
  - vm_compute. discriminate.
  - intros subject expire _. eexists. split; reflexivity.
Defined.

(** ** The last day of the calendar *)

Lemma datetime_max_days :
  datetime_max = 3652059 * MICROSECONDS_PER_DAY - 1.
Proof. reflexivity. Qed.

(** X21.  On 9999-12-31, at any time of the day, midnight tomorrow is no
    datetime: [get_today_oncall] raises [OverflowError] instead of
    answering, and does not write. *)
Theorem get_today_oncall_overflow now cu db :
  3652058 * MICROSECONDS_PER_DAY <= now <= datetime_max ->
  get_today_oncall now cu db = (Raise OverflowError, db).
Proof.
  intros Hnow. rewrite datetime_max_days in Hnow.
  assert (Hq : now mod MICROSECONDS_PER_DAY
               = now - 3652058 * MICROSECONDS_PER_DAY).
  { symmetry. apply (Z.mod_unique_pos now _ 3652058); lia. }
  assert (Hm : replace_midnight now = 3652058 * MICROSECONDS_PER_DAY)
    by (unfold replace_midnight; lia).
  unfold get_today_oncall, bind, datetime_add, timedelta_days.
  rewrite Hm.
  assert (Hhi : (datetime_max
                 <? 3652058 * MICROSECONDS_PER_DAY + 1 * MICROSECONDS_PER_DAY)
                = true) by (vm_compute; reflexivity).
  rewrite Hhi, orb_true_r. reflexivity.
Qed.

Lemma get_today_oncall_overflow_witness :
  get_today_oncall (3652058 * MICROSECONDS_PER_DAY + 1) Sample.alice
                   Sample.db2
  = (Raise OverflowError, Sample.db2).
Proof.
  apply (get_today_oncall_overflow (3652058 * MICROSECONDS_PER_DAY + 1)
           Sample.alice Sample.db2).
  vm_compute. split; discriminate.
Defined.
